(** * ytsaver: a shallow embedding of [server.py]

    The Flask server of the repository is embedded as pure functions over an
    explicit world: the file system below the temporary directory, the set
    [temp_files] of tracked paths, the lines printed, and the calls made to
    the yt-dlp collaborator.

    Conventions.
    - A Python [str] is a list of Unicode code points ([list N]); [lit]
      turns an ASCII literal of the source into such a list.
    - Python floats ([time.time()], [os.path.getctime], the size estimates)
      are exact rationals ([Q]).  Every value the theorems compute (3.0,
      15.0, 24.0, 45.0, 75.0 and their products with 2^20) is exactly
      representable in binary64, so the rational arithmetic and the float
      arithmetic agree there.  Where a float operation rounds, the two
      differ: no theorem is stated about the estimates of other durations.
    - The names of a function are local or global as Python decides when it
      compiles the function: a name the body assigns, without a [global]
      statement, is local, and reading it before its assignment raises.
    - An exception is a value of type [exn]; a call that can raise returns
      a sum, and [try/except] is a [match] on it.
    - One handler runs at a time: the lock [temp_files_lock] is not
      modelled, a [with temp_files_lock:] block is its body. *)

From Stdlib Require Import Ascii String QArith Qround.
From stdpp Require Import gmap strings list fin_maps.

Close Scope Q_scope.
Local Open Scope N_scope.

(** ** Python strings *)

Abbreviation str := (list N).

Definition lit (s : string) : str :=
  (λ a, N_of_ascii a) <$> list_ascii_of_string s.

Module Char.
Definition space : N := 32.
Definition hyphen : N := 45.
Definition slash : N := 47.
Definition underscore : N := 95.
End Char.

Definition in_range (lo hi c : N) : bool := (lo <=? c) && (c <=? hi).

(** [str.isspace] on one character: the code points Python treats as
    whitespace, which are what [str.rstrip()] without argument strips. *)
Definition isspace (c : N) : bool :=
  in_range 9 13 c || in_range 28 32 c || (c =? 133) || (c =? 160)
  || (c =? 5760) || in_range 8192 8202 c || in_range 8232 8233 c
  || (c =? 8239) || (c =? 8287) || (c =? 12288).

(** The characters of the class [A-Za-z0-9]. *)
Definition ascii_alnum (c : N) : bool :=
  in_range 48 57 c || in_range 65 90 c || in_range 97 122 c.

(** [str.isalnum] on one character of the Latin-1 block (U+0000..U+00FF):
    letters, decimal digits, and the characters with a numeric value
    (superscript digits and vulgar fractions). *)
Definition latin1_alnum (c : N) : bool :=
  ascii_alnum c
  || (c =? 170) || in_range 178 179 c || (c =? 181) || in_range 185 186 c
  || in_range 188 190 c || in_range 192 214 c || in_range 216 246 c
  || in_range 248 255 c.

(** The class the specification names for sanitised titles: [A-Za-z0-9 _-]. *)
Definition in_class (c : N) : bool :=
  ascii_alnum c || (c =? Char.space) || (c =? Char.underscore)
  || (c =? Char.hyphen).

(** ** Python values and exceptions *)

(** Comparison of two floats, [x < y]. *)
Definition Qltb (x y : Q) : bool :=
  match (x ?= y)%Q with Lt => true | _ => false end.

Inductive pyval :=
| PyNone
| PyNum (q : Q)
| PyStr (s : str).

Inductive exn :=
| DownloadError (msg : str)          (* yt_dlp.DownloadError *)
| TypeError
| FileNotFoundError (path : str)
| PermissionError (path : str)
| UnboundLocalError (name : str)
| OtherError (msg : str).

(** [isinstance(e, yt_dlp.DownloadError)] *)
Definition is_DownloadError (e : exn) : bool :=
  match e with DownloadError _ => true | _ => false end.

(** ** Quality resolver (lines 210-220 of [download]) *)

Definition quality_formats : gmap str str :=
  list_to_map
    [ (lit "360p",
       lit "bestvideo[height<=360][ext=mp4]+bestaudio[ext=m4a]/best[height<=360][ext=mp4]/best[ext=mp4]");
      (lit "480p",
       lit "bestvideo[height<=480][ext=mp4]+bestaudio[ext=m4a]/best[height<=480][ext=mp4]/best[ext=mp4]");
      (lit "720p",
       lit "bestvideo[height<=720][ext=mp4]+bestaudio[ext=m4a]/best[height<=720][ext=mp4]/best[ext=mp4]");
      (lit "1080p",
       lit "bestvideo[height<=1080][ext=mp4]+bestaudio[ext=m4a]/best[height<=1080][ext=mp4]/best[ext=mp4]");
      (lit "best",
       lit "bestvideo[ext=mp4]+bestaudio[ext=m4a]/best[ext=mp4]/mp4") ].

(** [quality_formats.get(quality, quality_formats['best'])] *)
Definition format_selector (quality : str) : str :=
  default (quality_formats !!! lit "best") (quality_formats !! quality).

(** The five tags of [/qualities], and the three-tier expression the
    specification describes for a height: best video of at most that height
    in mp4 plus best m4a audio, else best overall of at most that height in
    mp4, else best overall in mp4. *)
Definition fixed_tags : list str :=
  [lit "360p"; lit "480p"; lit "720p"; lit "1080p"; lit "best"].

Definition three_tier (height : str) : str :=
  lit "bestvideo[height<=" ++ height ++ lit "][ext=mp4]+bestaudio[ext=m4a]"
  ++ lit "/best[height<=" ++ height ++ lit "][ext=mp4]"
  ++ lit "/best[ext=mp4]".

(** The alternatives of a selector, separated by ['/']: [s.split(sep)]. *)
Fixpoint split (sep : N) (s : str) : list str :=
  match s with
  | [] => [[]]
  | c :: s' =>
      if c =? sep then [] :: split sep s'
      else match split sep s' with
           | [] => [[c]]
           | h :: t => (c :: h) :: t
           end
  end.

(** ** The file system and the registry *)

(** What the server observes of a file: its size ([os.path.getsize]), its
    creation time ([os.path.getctime]) and whether [os.remove] succeeds on
    it (it raises on a file that is locked or protected). *)
Record file := File { st_size : N; st_ctime : Q; removable : bool }.

Definition os_path_exists (fs : gmap str file) (p : str) : bool :=
  bool_decide (is_Some (fs !! p)).

Definition os_path_getctime (fs : gmap str file) (p : str) : exn + Q :=
  match fs !! p with
  | Some f => inr (st_ctime f)
  | None => inl (FileNotFoundError p)
  end.

Definition os_path_getsize (fs : gmap str file) (p : str) : exn + N :=
  match fs !! p with
  | Some f => inr (st_size f)
  | None => inl (FileNotFoundError p)
  end.

Definition os_remove (fs : gmap str file) (p : str) : exn + gmap str file :=
  match fs !! p with
  | Some f => if removable f then inr (delete p fs) else inl (PermissionError p)
  | None => inl (FileNotFoundError p)
  end.

(** The lines the server prints, one constructor per [print] call. *)
Inductive line :=
| CleanedUpOldFile (p : str)
| ErrorCleaningUp (p : str) (e : exn)
| FetchingInfo (video_id : str)
| VideoQualitiesData
| SuccessfullyProcessed (title : pyval)
| ErrorInVideoInfo (e : exn)
| CouldNotExtractTitle (e : exn)
| StartingDownload (video_id quality : str)
| VideoTitleLine (title : str)
| UrlLine (url : str)
| OutputFileLine (p : str)
| FormatSelectorLine (sel : str)
| DownloadSuccessful (size : N)
| CleanedUpTempFile (p : str)
| DelayedCleanupError (e : exn)
| ErrorCleanupFailed (e : exn)
| ErrorInCleanupOldFiles (e : exn).

(** The options handed to [yt_dlp.YoutubeDL] for a download. *)
Record ydl_opts := YdlOpts {
  outtmpl : str;
  format : str;
  merge_output_format : str;
  quiet : bool;
  no_warnings : bool
}.

(** The calls made to the extraction collaborator. *)
Inductive ydl_call :=
| ExtractInfo (url : str)
| Download (opts : ydl_opts) (url : str).

Record world := World {
  fs : gmap str file;              (* the files on disk *)
  temp_files : gset str;           (* the module-level set [temp_files] *)
  stdout : list line;              (* what has been printed *)
  ydl_calls : list ydl_call;       (* calls to yt-dlp so far *)
  cleanup_threads : list str       (* [delayed_cleanup] threads started *)
}.

Definition set_fs (w : world) (fs' : gmap str file) : world :=
  World fs' (temp_files w) (stdout w) (ydl_calls w) (cleanup_threads w).
Definition set_temp_files (w : world) (t : gset str) : world :=
  World (fs w) t (stdout w) (ydl_calls w) (cleanup_threads w).
Definition print (w : world) (ls : list line) : world :=
  World (fs w) (temp_files w) (stdout w ++ ls) (ydl_calls w) (cleanup_threads w).
Definition call (w : world) (c : ydl_call) : world :=
  World (fs w) (temp_files w) (stdout w) (ydl_calls w ++ [c]) (cleanup_threads w).
Definition start_cleanup_thread (w : world) (p : str) : world :=
  World (fs w) (temp_files w) (stdout w) (ydl_calls w) (cleanup_threads w ++ [p]).

(** [temp_files.add(path)] and [temp_files.discard(path)], the two registry
    operations of the handlers. *)
Definition register (path : str) (w : world) : world :=
  set_temp_files w ({[path]} ∪ temp_files w).
Definition unregister (path : str) (w : world) : world :=
  set_temp_files w (temp_files w ∖ {[path]}).

(** *** The retention sweep: [cleanup_old_files] *)

(** [current_time - os.path.getctime(file_path) > 3600] *)
Definition older_than_hour (current_time ctime : Q) : bool :=
  Qltb 3600 (current_time - ctime).

(** The state of the loop: the files on disk, [files_to_remove], and the
    lines printed so far. *)
Definition sweep_state : Type := gmap str file * gset str * list line.

(** One iteration of [for file_path in temp_files.copy()], with its
    [try/except Exception]. *)
Definition sweep_entry (current_time : Q) (st : sweep_state) (file_path : str)
  : sweep_state :=
  let '(disk, files_to_remove, out) := st in
  if os_path_exists disk file_path then
    match os_path_getctime disk file_path with
    | inl e =>
        (disk, {[file_path]} ∪ files_to_remove, out ++ [ErrorCleaningUp file_path e])
    | inr ctime =>
        if older_than_hour current_time ctime then
          match os_remove disk file_path with
          | inl e =>
              (disk, {[file_path]} ∪ files_to_remove,
               out ++ [ErrorCleaningUp file_path e])
          | inr disk' =>
              (disk', {[file_path]} ∪ files_to_remove,
               out ++ [CleanedUpOldFile file_path])
          end
        else st
    end
  else (disk, {[file_path]} ∪ files_to_remove, out).

(** Reading a name that is local to the running function: the value it is
    bound to, or UnboundLocalError when nothing has been assigned to it. *)
Definition read_local {A : Type} (name : str) (binding : option A) : exn + A :=
  match binding with
  | Some v => inr v
  | None => inl (UnboundLocalError name)
  end.

(** [cleanup_old_files()] run at time [current_time = time.time()].

    Line 43, [temp_files -= files_to_remove], assigns the name [temp_files]
    and the function has no [global temp_files]: in this function the name
    is local, and the module-level set cannot be reached through it.  The
    local name is bound by line 43 only, so line 29, [temp_files.copy()],
    reads it unbound and raises; the [except Exception] of lines 44-45
    prints the error and the function returns.  The loop is written out as
    the source has it, for the set the local name would hold. *)
Definition cleanup_old_files (current_time : Q) (w : world) : world :=
  let local_temp_files : option (gset str) := None in
  match read_local (lit "temp_files") local_temp_files with
  | inl e => print w [ErrorInCleanupOldFiles e]
  | inr tracked =>
      let '(disk, files_to_remove, out) :=
        foldl (sweep_entry current_time) (fs w, ∅, stdout w)
              (elements tracked) in
      (* line 43 rebinds the local name; the module-level set is not assigned *)
      World disk (temp_files w) out (ydl_calls w) (cleanup_threads w)
  end.

(** What one iteration of the loop does with an entry, read off the file
    found at its path: the file is deleted, the path is added to
    [files_to_remove], the deletion raises. *)
Definition sweep_deletes (now : Q) (found : option file) : bool :=
  match found with
  | Some f => older_than_hour now (st_ctime f) && removable f
  | None => false
  end.

Definition sweep_untracks (now : Q) (found : option file) : bool :=
  match found with
  | Some f => older_than_hour now (st_ctime f)
  | None => true
  end.

Definition sweep_fails (now : Q) (found : option file) : bool :=
  match found with
  | Some f => older_than_hour now (st_ctime f) && negb (removable f)
  | None => false
  end.

(** *** Delayed cleanup and responses *)

(** The body of [delayed_cleanup] once its [time.sleep(30)] has elapsed. *)
Definition delayed_cleanup (output_file : str) (w : world) : world :=
  if os_path_exists (fs w) output_file then
    match os_remove (fs w) output_file with
    | inl cleanup_error => print w [DelayedCleanupError cleanup_error]
    | inr disk =>
        unregister output_file
          (print (set_fs w disk) [CleanedUpTempFile output_file])
    end
  else unregister output_file w.

(** [f"{x} MB"] and [f"{x} GB"]: the number is kept, not its digits. *)
Inductive size_text :=
| MB (x : Q)
| GB (x : Q).

Record quality_entry := QualityEntry {
  size_bytes : Z;
  size_mb : Q;
  size_formatted : size_text;
  estimated : bool
}.

Record video_info := VideoInfo {
  vi_title : pyval;
  vi_duration : pyval;
  vi_qualities : gmap str quality_entry
}.

Inductive body :=
| Text (s : str)
| TextExn (prefix : str) (e : exn)            (* f"{prefix}{str(e)}" *)
| JsonError (prefix : str) (e : option exn)   (* jsonify({'error': ...}) *)
| JsonVideoInfo (vi : video_info)             (* jsonify(video_info) *)
| Attachment (path download_name : str).      (* send_file(...) *)

Record response := Response { status : N; payload : body }.

(** The collaborators of one request: yt-dlp, the wall clock and Flask's
    [send_file].  [ydl_download] returns the disk it leaves behind and the
    exception it raised, if any. *)
Record env := Env {
  extract_info : str → exn + gmap string pyval;
  ydl_download : ydl_opts → str → gmap str file → option exn * gmap str file;
  strftime_now : str;          (* datetime.now().strftime("%Y%m%d_%H%M%S") *)
  send_file : gmap str file → str → option exn
}.

(** [f"https://www.youtube.com/watch?v={video_id}"] *)
Definition watch_url (video_id : str) : str :=
  lit "https://www.youtube.com/watch?v=" ++ video_id.

(** *** Size estimates: [get_video_info] *)

(** [x / 60] and the like raise TypeError unless [x] is a number. *)
Definition to_number (v : pyval) : exn + Q :=
  match v with
  | PyNum q => inr q
  | _ => inl TypeError
  end.

(** [round(x, 1)]: the nearest multiple of one tenth, ties to even. *)
Definition round1 (x : Q) : Q :=
  let t := (x * 10)%Q in
  let n := Qfloor t in
  let up :=
    match (t - inject_Z n ?= 1 # 2)%Q with
    | Lt => false
    | Gt => true
    | Eq => Z.odd n
    end in
  Qred (inject_Z (if up then n + 1 else n) / 10)%Q.

(** [int(x)]: truncation towards zero. *)
Definition int_of (x : Q) : Z := Z.quot (Qnum x) (Zpos (Qden x)).

(** The dictionary [quality_estimates], in insertion order.  The products
    are those of exact rationals: they are the floats of the source where
    the division by 60 and the product are exact, as at 180 seconds. *)
Definition quality_estimates (duration_minutes : Q) : list (str * Q) :=
  [ (lit "360p", duration_minutes * 5);
    (lit "480p", duration_minutes * 8);
    (lit "720p", duration_minutes * 15);
    (lit "1080p", duration_minutes * 25) ]%Q.

(** The body of the loop over [quality_estimates.items()]. *)
Definition estimate_entry (estimated_mb : Q) : quality_entry :=
  let estimated_mb := round1 estimated_mb in
  let estimated_bytes := int_of (estimated_mb * 1024 * 1024)%Q in
  let size_formatted :=
    if Qltb estimated_mb 1024 then MB estimated_mb
    else GB (round1 (estimated_mb / 1024)%Q) in
  QualityEntry estimated_bytes estimated_mb size_formatted true.

Definition fill_qualities (estimates : list (str * Q)) : gmap str quality_entry :=
  foldl (λ qualities '(quality, estimated_mb),
           <[quality := estimate_entry estimated_mb]> qualities)
        ∅ estimates.

(** [not video_id] for [video_id = request.args.get('videoId')]. *)
Definition falsy (video_id : option str) : bool :=
  match video_id with
  | None | Some [] => true
  | Some _ => false
  end.

Definition get_video_info (E : env) (video_id : option str) (w : world)
  : response * world :=
  match video_id with
  | None | Some [] => (Response 400 (JsonError (lit "No video ID provided") None), w)
  | Some vid =>
      let url := watch_url vid in
      let w := call (print w [FetchingInfo vid]) (ExtractInfo url) in
      let failed (e : exn) :=
        (Response 500 (JsonError (lit "Failed to get video info: ") (Some e)),
         print w [ErrorInVideoInfo e]) in
      match extract_info E url with
      | inl e => failed e
      | inr info =>
          let title := default (PyStr []) (info !! "title"%string) in
          let duration := default (PyNum 0) (info !! "duration"%string) in
          match to_number (default (PyNum 180) (info !! "duration"%string)) with
          | inl e => failed e
          | inr d =>
              let duration_minutes := (d / 60)%Q in
              let vi :=
                VideoInfo title duration
                  (fill_qualities (quality_estimates duration_minutes)) in
              (Response 200 (JsonVideoInfo vi),
               print w [VideoQualitiesData; SuccessfullyProcessed title])
          end
      end
  end.

(** The per-minute rates of the specification, in MB. *)
Definition rates : list (str * Q) :=
  [ (lit "360p", 5%Q); (lit "480p", 8%Q); (lit "720p", 15%Q); (lit "1080p", 25%Q) ].

(** What the specification expects of the [qualities] of a response for a
    duration of 180 seconds. *)
Definition estimates_for_180 (qs : gmap str quality_entry) : Prop :=
  (∃ e, qs !! lit "360p" = Some e ∧ size_mb e = 15%Q)
  ∧ (∃ e, qs !! lit "480p" = Some e ∧ size_mb e = 24%Q)
  ∧ (∃ e, qs !! lit "720p" = Some e ∧ size_mb e = 45%Q)
  ∧ (∃ e, qs !! lit "1080p" = Some e ∧ size_mb e = 75%Q)
  ∧ ∀ tag rate, (tag, rate) ∈ rates →
      ∃ e, qs !! tag = Some e
           ∧ (size_mb e == 180 / 60 * rate)%Q
           ∧ (inject_Z (size_bytes e) == size_mb e * 1024 * 1024)%Q
           ∧ estimated e = true.

(** ** Paths *)

(** [os.path.join(a, b)] of [posixpath]. *)
Definition os_path_join (a b : str) : str :=
  if bool_decide (head b = Some Char.slash) then b
  else if bool_decide (a = []) || bool_decide (last a = Some Char.slash) then a ++ b
  else a ++ Char.slash :: b.

(** Lexical resolution of the components of an absolute path: empty and
    ["."] components are skipped, [".."] drops the last directory entered
    (and stays at the root).  [stack] is the directory reached so far,
    innermost first. *)
Fixpoint resolve (stack : list str) (components : list str) : list str :=
  match components with
  | [] => stack
  | c :: rest =>
      if bool_decide (c = []) || bool_decide (c = lit ".") then resolve stack rest
      else if bool_decide (c = lit "..") then resolve (tail stack) rest
      else resolve (c :: stack) rest
  end.

Definition normal_components (p : str) : list str :=
  reverse (resolve [] (split Char.slash p)).

(** [p] lies in or below the directory [dir]. *)
Definition inside (dir p : str) : Prop :=
  normal_components dir `prefix_of` normal_components p.

(** The quality of a request that leaves the temporary directory. *)
Definition escaping_quality : str := lit "/../../x".

Section Server.

(** The Unicode character database beyond Latin-1 is not part of the
    repository: [uni_alnum c] is [chr(c).isalnum()] for [c >= 256]. *)
Variable uni_alnum : N → bool.

(** [tempfile.gettempdir()] *)
Variable gettempdir : str.

Definition isalnum (c : N) : bool :=
  if c <? 256 then latin1_alnum c else uni_alnum c.

(** *** Filename sanitiser (lines 193-200 of [download]) *)

(** [c.isalnum() or c in (' ', '-', '_')] *)
Definition keep (c : N) : bool :=
  isalnum c || (c =? Char.space) || (c =? Char.hyphen)
  || (c =? Char.underscore).

(** [s.rstrip()] *)
Fixpoint rstrip (s : str) : str :=
  match s with
  | [] => []
  | c :: s' =>
      match rstrip s' with
      | [] => if isspace c then [] else [c]
      | r => c :: r
      end
  end.

(** [s.replace(' ', '_')] *)
Definition replace_space (s : str) : str :=
  (λ c, if c =? Char.space then Char.underscore else c) <$> s.

(** ["".join(c for c in t if ...).rstrip().replace(' ', '_')[:50]] *)
Definition clean_title (t : str) : str :=
  take 50 (replace_space (rstrip (List.filter keep t))).

(** The characters a cleaned title is made of. *)
Definition safe_char (c : N) : Prop :=
  isalnum c = true ∨ c = Char.hyphen ∨ c = Char.underscore.

(** The result of [ydl.extract_info(url, download=False)]: the metadata
    dictionary, or the exception raised. *)
Definition video_title_of (r : exn + gmap string pyval) (video_id : str) : str :=
  match r with
  | inl _ => video_id
  | inr info =>
      match default (PyStr video_id) (info !! "title"%string) with
      | PyStr t => clean_title t
      | _ => video_id         (* iterating a non-string raises TypeError *)
      end
  end.

(** *** The download handler *)

Definition TEMP_DIR : str := os_path_join gettempdir (lit "yt_downloader").

(** [os.path.join(TEMP_DIR, f"{video_title}_{quality}_{timestamp}.mp4")] *)
Definition output_path (video_title quality timestamp : str) : str :=
  os_path_join TEMP_DIR
    (video_title ++ lit "_" ++ quality ++ lit "_" ++ timestamp ++ lit ".mp4").

(** The two [except] clauses of the download [try] block. *)
Definition download_failed (e : exn) : response :=
  if is_DownloadError e
  then Response 500 (TextExn (lit "YouTube download error: ") e)
  else Response 500 (TextExn (lit "Error downloading video: ") e).

(** Lines 261-290: hand the file to [send_file] and start the delayed
    cleanup, or clean up at once when [send_file] raises. *)
Definition stream (E : env) (output_file video_title quality : str) (w : world)
  : response * world :=
  match send_file E (fs w) output_file with
  | None =>
      (Response 200
         (Attachment output_file (video_title ++ lit "_" ++ quality ++ lit ".mp4")),
       start_cleanup_thread w output_file)
  | Some e =>
      let w :=
        if os_path_exists (fs w) output_file then
          match os_remove (fs w) output_file with
          | inl cleanup_error => print w [ErrorCleanupFailed cleanup_error]
          | inr disk => unregister output_file (set_fs w disk)
          end
        else unregister output_file w in
      (Response 500 (TextExn (lit "Error sending file: ") e), w)
  end.

(** The values [download] derives for a request with a video id [vid] and
    the quality [quality] (already defaulted to ["best"]). *)
Definition job_title (E : env) (vid : str) : str :=
  video_title_of (extract_info E (watch_url vid)) vid.

Definition job_output (E : env) (vid quality : str) : str :=
  output_path (job_title E vid) quality (strftime_now E).

Definition job_opts (E : env) (vid quality : str) : ydl_opts :=
  YdlOpts (job_output E vid quality) (format_selector quality) (lit "mp4")
          false false.

(** Lines 189-200, the [try] block of the title: the call to
    [extract_info], and the line printed when it, or the cleaning of a title
    that is not a string, raises. *)
Definition fetch_title (E : env) (vid : str) (w : world) : world :=
  let url := watch_url vid in
  let w := call w (ExtractInfo url) in
  match extract_info E url with
  | inl e => print w [CouldNotExtractTitle e]
  | inr info =>
      match default (PyStr vid) (info !! "title"%string) with
      | PyStr _ => w
      | _ => print w [CouldNotExtractTitle TypeError]
      end
  end.

(** Lines 230-259, the [try] block of the download: it ends in the response
    of an early [return] or of an [except] clause, or with the size of the
    file that was written. *)
Definition fetch (E : env) (vid quality : str) (w : world)
  : (response + N) * world :=
  let url := watch_url vid in
  let output_file := job_output E vid quality in
  let opts := job_opts E vid quality in
  (* Clean up any existing file first *)
  let cleaned :=
    if os_path_exists (fs w) output_file then os_remove (fs w) output_file
    else inr (fs w) in
  match cleaned with
  | inl e => (inl (download_failed e), w)
  | inr disk =>
      let w :=
        print (set_fs w disk)
          [StartingDownload vid quality; VideoTitleLine (job_title E vid);
           UrlLine url; OutputFileLine output_file;
           FormatSelectorLine (format opts)] in
      let '(raised, disk) := ydl_download E opts url (fs w) in
      let w := call (set_fs w disk) (Download opts url) in
      match raised with
      | Some e => (inl (download_failed e), w)
      | None =>
          (* Verify file was created *)
          if negb (os_path_exists (fs w) output_file) then
            (inl (Response 500
                    (Text (lit "Error: Download completed but file not found"))),
             w)
          else
            (* Check file size *)
            match os_path_getsize (fs w) output_file with
            | inl e => (inl (download_failed e), w)
            | inr file_size =>
                if file_size =? 0 then
                  match os_remove (fs w) output_file with
                  | inl e => (inl (download_failed e), w)
                  | inr disk =>
                      (inl (Response 500
                              (Text (lit "Error: Downloaded file is empty"))),
                       set_fs w disk)
                  end
                else (inr file_size, print w [DownloadSuccessful file_size])
            end
      end
  end.

(** [download()] for the query arguments [videoId] and [quality]. *)
Definition download (E : env) (video_id quality : option str) (w : world)
  : response * world :=
  let quality := default (lit "best") quality in
  match video_id with
  | None | Some [] => (Response 400 (Text (lit "No video ID provided")), w)
  | Some vid =>
      (* Get video title first *)
      let w := fetch_title E vid w in
      let output_file := job_output E vid quality in
      (* Add to temp files tracking *)
      let w := register output_file w in
      match fetch E vid quality w with
      | (inl early, w) => (early, w)
      | (inr _, w) => stream E output_file (job_title E vid) quality w
      end
  end.

End Server.

(** ** Exit cleanup, the sweeper thread and the static endpoints *)





(** The first firings of [cleanup_thread]: after each [time.sleep(300)] the
    sweep runs, at the time [time.time()] then returns. *)
Definition cleanup_thread (times : list Q) (w : world) : world :=
  foldl (λ w current_time, cleanup_old_files current_time w) w times.

(** The dictionary [get_qualities] returns. *)
Definition get_qualities : gmap str str :=
  list_to_map
    [ (lit "360p", lit "360p quality");
      (lit "480p", lit "480p quality");
      (lit "720p", lit "720p HD quality");
      (lit "1080p", lit "1080p Full HD quality");
      (lit "best", lit "Best available quality") ].

(** ** Example worlds *)

Definition demo_old : str := lit "/tmp/yt_downloader/old_best_20260101_000000.mp4".
Definition demo_new : str := lit "/tmp/yt_downloader/new_best_20260101_010000.mp4".
Definition demo_gone : str := lit "/tmp/yt_downloader/gone_best_20260101_000000.mp4".

(** A locked file created at time 0, a deletable one created at time 3000,
    and a tracked path whose file is gone. *)
Definition demo_world : world :=
  World {[ demo_old := File 10 0 false; demo_new := File 5 3000 true ]}
        {[ demo_old; demo_new; demo_gone ]} [] [] [].

(** A Unicode table without alphanumerics beyond Latin-1, for the examples. *)
Definition no_unicode : N → bool := λ _, false.

Definition demo_info : gmap string pyval :=
  {[ "title"%string := PyStr (lit "Some Clip!");
     "duration"%string := PyNum 180 ]}.

(** A collaborator that returns [info] as metadata and writes a deletable
    file of [size] bytes at the output template; [send_file] succeeds. *)
Definition demo_env (info : gmap string pyval) (size : N) : env :=
  Env (λ _, inr info)
      (λ opts _ disk, (None, <[outtmpl opts := File size 0 true]> disk))
      (lit "20260101_000000")
      (λ _ _, None).

Definition empty_world : world := World ∅ ∅ [] [] [].

(** The output path of the example request. *)
Definition demo_output : str :=
  job_output no_unicode (lit "/tmp") (demo_env demo_info 0) (lit "abc123")
             (lit "720p").

(** Example collaborators with a given download step and [send_file]
    outcome; the metadata is [demo_info]. *)
Definition demo_env_with
    (dl : ydl_opts → str → gmap str file → option exn * gmap str file)
    (send : option exn) : env :=
  Env (λ _, inr demo_info) dl (lit "20260101_000000") (λ _ _, send).

(** A download step that writes a file of 1000 bytes, removable or not. *)
Definition writes (can_remove : bool)
  : ydl_opts → str → gmap str file → option exn * gmap str file :=
  λ opts _ disk, (None, <[outtmpl opts := File 1000 0 can_remove]> disk).

(** A download step that raises and one that returns without a file. *)
Definition raises (e : exn)
  : ydl_opts → str → gmap str file → option exn * gmap str file :=
  λ _ _ disk, (Some e, disk).
Definition writes_nothing
  : ydl_opts → str → gmap str file → option exn * gmap str file :=
  λ _ _ disk, (None, disk).

(** A world whose disk holds a locked file at the example output path. *)
Definition stale_world : world :=
  World {[ demo_output := File 7 0 false ]} ∅ [] [] [].



(** * Properties *)

(** ** Quality resolver *)

Lemma quality_formats_unknown (tag : str) :
  tag ∉ fixed_tags → quality_formats !! tag = None.
Proof.
  intros Hout. unfold quality_formats.
  apply not_elem_of_list_to_map_1. exact Hout.
Qed.

(** C3: each of the four height tags resolves to the three-tier expression of
    its height and [best] to the expression without height constraint, each
    made of three alternatives; every tag outside the fixed set resolves to
    the selector of [best]. *)
Theorem format_selector_resolves (tag : str) :
  (∀ height, height ∈ [lit "360"; lit "480"; lit "720"; lit "1080"] →
     tag = height ++ lit "p" → format_selector tag = three_tier height)
  ∧ (tag = lit "best" →
     format_selector tag = lit "bestvideo[ext=mp4]+bestaudio[ext=m4a]/best[ext=mp4]/mp4")
  ∧ (tag ∈ fixed_tags → length (split Char.slash (format_selector tag)) = 3%nat)
  ∧ (tag ∉ fixed_tags → format_selector tag = format_selector (lit "best")).
Proof.
  split; [|split; [|split]].
  - intros height Hh ->.
    repeat (apply elem_of_cons in Hh as [-> | Hh]); [vm_compute; reflexivity ..|].
    by apply elem_of_nil in Hh.
  - intros ->. vm_compute. reflexivity.
  - intros Hin. unfold fixed_tags in Hin.
    repeat (apply elem_of_cons in Hin as [-> | Hin]); [vm_compute; reflexivity ..|].
    by apply elem_of_nil in Hin.
  - intros Hout. unfold format_selector at 1.
    rewrite (quality_formats_unknown _ Hout). reflexivity.
Qed.

Lemma format_selector_resolves_witness :
  format_selector (lit "720p") = three_tier (lit "720")
  ∧ length (split Char.slash (format_selector (lit "720p"))) = 3%nat
  ∧ format_selector (lit "4k") = format_selector (lit "best").
Proof.
  split; [|split].
  - apply (proj1 (format_selector_resolves (lit "720p")) (lit "720")).
    + apply (bool_decide_unpack _). vm_compute. exact I.
    + reflexivity.
  - apply (proj1 (proj2 (proj2 (format_selector_resolves (lit "720p"))))).
    apply (bool_decide_unpack _). vm_compute. exact I.
  - apply (proj2 (proj2 (proj2 (format_selector_resolves (lit "4k"))))).
    apply (bool_decide_unpack _). vm_compute. exact I.
Defined.

(** ** The registry *)

Lemma world_eq (w1 w2 : world) :
  fs w1 = fs w2 → temp_files w1 = temp_files w2 → stdout w1 = stdout w2 →
  ydl_calls w1 = ydl_calls w2 → cleanup_threads w1 = cleanup_threads w2 →
  w1 = w2.
Proof. destruct w1, w2; simpl; congruence. Qed.

Lemma os_path_exists_Some disk p f : disk !! p = Some f → os_path_exists disk p = true.
Proof. intros H. unfold os_path_exists. apply bool_decide_eq_true. eauto. Qed.

Lemma os_path_exists_None disk p : disk !! p = None → os_path_exists disk p = false.
Proof.
  intros H. unfold os_path_exists. apply bool_decide_eq_false.
  rewrite H. by intros [? ?].
Qed.

(** C8: registering a tracked path changes nothing and registering twice is
    registering once; unregistering removes the path whatever the disk holds,
    is a no-op on an untracked path, and unregistering twice is unregistering
    once.  Both are total functions on worlds and leave the disk untouched.
    The delayed cleanup unregisters the path when the file is absent as well
    as when it is present and removed. *)
Theorem register_unregister_idempotent (path : str) (w : world) :
  (path ∈ temp_files w → register path w = w)
  ∧ register path (register path w) = register path w
  ∧ (path ∉ temp_files (unregister path w))
  ∧ (path ∉ temp_files w → unregister path w = w)
  ∧ unregister path (unregister path w) = unregister path w
  ∧ fs (register path w) = fs w
  ∧ fs (unregister path w) = fs w
  ∧ (fs w !! path = None → delayed_cleanup path w = unregister path w)
  ∧ (∀ f, fs w !! path = Some f → removable f = true →
          temp_files (delayed_cleanup path w) = temp_files (unregister path w)).
Proof.
  repeat split.
  - intros Hin. apply world_eq; simpl; try reflexivity. set_solver.
  - apply world_eq; simpl; try reflexivity. set_solver.
  - simpl. set_solver.
  - intros Hout. apply world_eq; simpl; try reflexivity. set_solver.
  - apply world_eq; simpl; try reflexivity. set_solver.
  - intros Habs. unfold delayed_cleanup.
    by rewrite (os_path_exists_None _ _ Habs).
  - intros f Hf Hrm. unfold delayed_cleanup, os_remove.
    rewrite (os_path_exists_Some _ _ _ Hf), Hf, Hrm. reflexivity.
Qed.

Lemma register_unregister_idempotent_witness :
  register demo_old demo_world = demo_world
  ∧ unregister (lit "/tmp/yt_downloader/other.mp4") demo_world = demo_world
  ∧ delayed_cleanup demo_gone demo_world = unregister demo_gone demo_world
  ∧ temp_files (delayed_cleanup demo_new demo_world)
    = temp_files (unregister demo_new demo_world).
Proof.
  pose proof (register_unregister_idempotent demo_old demo_world)
    as (Hreg & _).
  pose proof (register_unregister_idempotent
                (lit "/tmp/yt_downloader/other.mp4") demo_world)
    as (_ & _ & _ & Hunreg & _).
  pose proof (register_unregister_idempotent demo_gone demo_world)
    as (_ & _ & _ & _ & _ & _ & _ & Hgone & _).
  pose proof (register_unregister_idempotent demo_new demo_world)
    as (_ & _ & _ & _ & _ & _ & _ & _ & Hnew).
  split; [apply Hreg; apply (bool_decide_unpack _); vm_compute; exact I|].
  split; [apply Hunreg; apply (bool_decide_unpack _); vm_compute; exact I|].
  split; [apply Hgone; vm_compute; reflexivity|].
  apply (Hnew (File 5 3000 true)); vm_compute; reflexivity.
Defined.

(** ** The retention sweep *)

(** The loop of lines 29-41 never runs, since line 29 raises before its first
    iteration.  The two lemmas below say what its iterations would do with
    the entries of a set: remove an old file, and put the path of an old or
    absent file, or of a file whose removal raises, into [files_to_remove]
    without stopping.  The sweep fails on the unbound name, not in the
    loop. *)

Lemma sweep_entry_spec now disk R out p :
  sweep_entry now (disk, R, out) p =
    (if sweep_deletes now (disk !! p) then delete p disk else disk,
     if sweep_untracks now (disk !! p) then {[p]} ∪ R else R,
     out ++ (if sweep_deletes now (disk !! p) then [CleanedUpOldFile p]
             else if sweep_fails now (disk !! p) then [ErrorCleaningUp p (PermissionError p)]
             else [])).
Proof.
  unfold sweep_entry, os_path_getctime, os_remove.
  destruct (disk !! p) as [f|] eqn:Hp.
  - rewrite (os_path_exists_Some _ _ _ Hp). simpl.
    destruct (older_than_hour now (st_ctime f)); simpl.
    + destruct (removable f); reflexivity.
    + by rewrite app_nil_r.
  - rewrite (os_path_exists_None _ _ Hp). simpl. by rewrite app_nil_r.
Qed.

Lemma sweep_fold_spec now l : ∀ disk R out,
  ∃ disk' R' out',
    foldl (sweep_entry now) (disk, R, out) l = (disk', R', out')
    ∧ (∀ q, disk' !! q =
            if bool_decide (q ∈ l) && sweep_deletes now (disk !! q)
            then None else disk !! q)
    ∧ (∀ q, q ∈ R' ↔ q ∈ R ∨ (q ∈ l ∧ sweep_untracks now (disk !! q) = true))
    ∧ (∀ q e, ErrorCleaningUp q e ∈ out' →
              ErrorCleaningUp q e ∈ out
              ∨ (q ∈ l ∧ sweep_fails now (disk !! q) = true)).
Proof.
  induction l as [|p l IH]; intros disk R out.
  - exists disk, R, out. simpl. split; [reflexivity|]. split; [|split].
    + reflexivity.
    + intros q. split; [auto | intros [?|[H _]]; [done | by apply elem_of_nil in H]].
    + auto.
  - change (foldl (sweep_entry now) (disk, R, out) (p :: l))
      with (foldl (sweep_entry now) (sweep_entry now (disk, R, out) p) l).
    rewrite sweep_entry_spec.
    set (disk1 := if sweep_deletes now (disk !! p) then delete p disk else disk).
    set (R1 := if sweep_untracks now (disk !! p) then {[p]} ∪ R else R).
    match goal with |- context [foldl _ (_, _, ?o) _] => set (out1 := o) end.
    destruct (IH disk1 R1 out1) as (disk' & R' & out' & Hf & Hd & HR & Ho).
    exists disk', R', out'. split; [exact Hf|].
    assert (Hother : ∀ q, q ≠ p → disk1 !! q = disk !! q).
    { intros q Hq. subst disk1. destruct (sweep_deletes _ _); [|done].
      by rewrite lookup_delete_ne. }
    assert (Hsame : disk1 !! p = if sweep_deletes now (disk !! p) then None else disk !! p).
    { subst disk1. destruct (sweep_deletes _ _); [|done]. by rewrite lookup_delete_eq. }
    split; [|split].
    + intros q. rewrite Hd. destruct (decide (q = p)) as [->|Hne].
      * rewrite (bool_decide_eq_true_2 (p ∈ p :: l)); [|apply elem_of_cons; auto].
        rewrite Hsame. simpl.
        destruct (sweep_deletes now (disk !! p)) eqn:E; simpl.
        -- by rewrite andb_false_r.
        -- by rewrite E, andb_false_r.
      * rewrite (Hother q Hne).
        assert (bool_decide (q ∈ p :: l) = bool_decide (q ∈ l)) as ->; [|done].
        apply bool_decide_ext. rewrite elem_of_cons. naive_solver.
    + intros q. rewrite HR. subst R1. rewrite elem_of_cons.
      destruct (decide (q = p)) as [->|Hne].
      * rewrite Hsame.
        destruct (disk !! p) as [f|] eqn:Ef; simpl.
        -- destruct (older_than_hour now (st_ctime f)) eqn:Eo; simpl.
           ++ destruct (removable f); simpl; [|rewrite Eo]; set_solver.
           ++ rewrite Eo. set_solver.
        -- set_solver.
      * rewrite (Hother q Hne).
        destruct (sweep_untracks now (disk !! p)); set_solver.
    + intros q e Hin. apply Ho in Hin as [Hin | [Hin Hfail]].
      * subst out1. apply elem_of_app in Hin as [Hin | Hin]; [by left|].
        right. destruct (sweep_deletes now (disk !! p)).
        -- apply list_elem_of_singleton in Hin. discriminate.
        -- destruct (sweep_fails now (disk !! p)) eqn:Efail.
           ++ apply list_elem_of_singleton in Hin. injection Hin as -> ->.
              split; [apply elem_of_cons; auto | exact Efail].
           ++ by apply elem_of_nil in Hin.
      * right. destruct (decide (q = p)) as [->|Hne].
        -- split; [apply elem_of_cons; auto|].
           rewrite Hsame in Hfail.
           destruct (sweep_deletes now (disk !! p)); [discriminate | exact Hfail].
        -- rewrite (Hother q Hne) in Hfail.
           split; [apply elem_of_cons; auto | exact Hfail].
Qed.

(** C4: the code does not do this.  The sweep raises at line 29, before it
    looks at any entry, and its [except] clause prints the error: whatever
    the file of a tracked entry (absent, or old with a removal that would
    raise), the entry is still tracked after the sweep, the disk is as it
    was, and one error line has been printed. *)
Theorem sweep_untracks_nothing (now : Q) (w : world) (p : str) :
  p ∈ temp_files w →
  let w' := cleanup_old_files now w in
  p ∈ temp_files w'
  ∧ fs w' = fs w
  ∧ stdout w'
    = stdout w ++ [ErrorInCleanupOldFiles (UnboundLocalError (lit "temp_files"))].
Proof.
  intros Hp w'. subst w'. unfold cleanup_old_files, read_local.
  cbn [print fs temp_files stdout]. split; [exact Hp|]. split; reflexivity.
Qed.

Lemma sweep_untracks_nothing_witness :
  fs demo_world !! demo_gone = None
  ∧ demo_gone ∈ temp_files (cleanup_old_files 4000 demo_world)
  ∧ stdout (cleanup_old_files 4000 demo_world)
    = [ErrorInCleanupOldFiles (UnboundLocalError (lit "temp_files"))].
Proof.
  split; [vm_compute; reflexivity|].
  destruct (sweep_untracks_nothing 4000 demo_world demo_gone) as (Hin & _ & Hout).
  - apply (bool_decide_unpack _). vm_compute. exact I.
  - split; [exact Hin | exact Hout].
Defined.

(** C5: the code does not do this.  A tracked file older than one hour is
    neither deleted nor removed from the tracked set by a sweep: the sweep
    raises at line 29 and changes nothing. *)
Theorem sweep_keeps_old_file (now : Q) (w : world) (p : str) (f : file) :
  p ∈ temp_files w →
  fs w !! p = Some f →
  (3600 < now - st_ctime f)%Q →
  fs (cleanup_old_files now w) !! p = Some f
  ∧ p ∈ temp_files (cleanup_old_files now w).
Proof.
  intros Hp Hf _. unfold cleanup_old_files, read_local.
  cbn [print fs temp_files]. split; [exact Hf | exact Hp].
Qed.

Lemma sweep_keeps_old_file_witness :
  removable (File 5 3000 true) = true
  ∧ fs (cleanup_old_files 7000 demo_world) !! demo_new = Some (File 5 3000 true)
  ∧ demo_new ∈ temp_files (cleanup_old_files 7000 demo_world).
Proof.
  split; [reflexivity|].
  apply (sweep_keeps_old_file 7000 demo_world demo_new (File 5 3000 true)).
  - apply (bool_decide_unpack _). vm_compute. exact I.
  - vm_compute. reflexivity.
  - vm_compute. reflexivity.
Defined.

(** ** Size estimates *)

Lemma round1_proper (x y : Q) : (x == y)%Q → round1 x = round1 y.
Proof.
  intros Hxy. unfold round1.
  assert (Ht : (x * 10 == y * 10)%Q) by (by rewrite Hxy).
  rewrite (Qfloor_comp _ _ Ht).
  assert (Hc : ((x * 10 - inject_Z (Qfloor (y * 10)) ?= 1 # 2)
                = (y * 10 - inject_Z (Qfloor (y * 10)) ?= 1 # 2))%Q).
  { apply Qcompare_comp; [by rewrite Ht | reflexivity]. }
  rewrite Hc. reflexivity.
Qed.

Lemma estimate_entry_proper (x y : Q) : (x == y)%Q → estimate_entry x = estimate_entry y.
Proof. intros Hxy. unfold estimate_entry. by rewrite (round1_proper _ _ Hxy). Qed.

(** The estimates for a duration of 180 seconds. *)
Lemma fill_qualities_180 (d : Q) :
  (d == 180)%Q →
  fill_qualities (quality_estimates (d / 60)) =
  fill_qualities (quality_estimates (180 / 60)).
Proof.
  intros Hd. unfold fill_qualities, quality_estimates. cbn [foldl].
  rewrite (estimate_entry_proper (d / 60 * 5) (180 / 60 * 5)) by (by rewrite Hd).
  rewrite (estimate_entry_proper (d / 60 * 8) (180 / 60 * 8)) by (by rewrite Hd).
  rewrite (estimate_entry_proper (d / 60 * 15) (180 / 60 * 15)) by (by rewrite Hd).
  rewrite (estimate_entry_proper (d / 60 * 25) (180 / 60 * 25)) by (by rewrite Hd).
  reflexivity.
Qed.

Lemma qualities_180 :
  let qs := fill_qualities (quality_estimates (180 / 60)) in
  qs !! lit "360p" = Some (QualityEntry 15728640 15 (MB 15) true)
  ∧ qs !! lit "480p" = Some (QualityEntry 25165824 24 (MB 24) true)
  ∧ qs !! lit "720p" = Some (QualityEntry 47185920 45 (MB 45) true)
  ∧ qs !! lit "1080p" = Some (QualityEntry 78643200 75 (MB 75) true)
  ∧ ∀ tag rate, (tag, rate) ∈ rates →
      ∃ e, qs !! tag = Some e
           ∧ (size_mb e == 180 / 60 * rate)%Q
           ∧ (inject_Z (size_bytes e) == size_mb e * 1024 * 1024)%Q
           ∧ estimated e = true.
Proof.
  repeat split; try (vm_compute; reflexivity).
  intros tag rate Hin. unfold rates in Hin.
  repeat (apply elem_of_cons in Hin as [Hin | Hin];
          [injection Hin as -> ->; eexists; repeat split; vm_compute; reflexivity|]).
  by apply elem_of_nil in Hin.
Qed.

Lemma estimates_for_180_holds :
  estimates_for_180 (fill_qualities (quality_estimates (180 / 60))).
Proof.
  destruct qualities_180 as (H1 & H2 & H3 & H4 & H5).
  unfold estimates_for_180. repeat split; eauto.
Qed.

(** C6: when the metadata has a duration of 180 seconds, [/video-info]
    answers 200 with [size_mb] 15, 24, 45 and 75 for 360p, 480p, 720p and
    1080p; each is the duration in minutes times the rate of its quality,
    [size_bytes] is [size_mb * 1024 * 1024], and [estimated] is true. *)
Theorem video_info_estimates_180 (E : env) (vid : str) (w : world)
        (info : gmap string pyval) (d : Q) :
  vid ≠ [] →
  extract_info E (watch_url vid) = inr info →
  info !! "duration"%string = Some (PyNum d) →
  (d == 180)%Q →
  ∃ vi, (get_video_info E (Some vid) w).1 = Response 200 (JsonVideoInfo vi)
        ∧ vi_duration vi = PyNum d
        ∧ estimates_for_180 (vi_qualities vi).
Proof.
  intros Hvid Hinfo Hdur Hd. unfold get_video_info.
  destruct vid as [|c vid]; [done|].
  rewrite Hinfo, Hdur. simpl.
  eexists. split; [reflexivity|]. simpl. split; [reflexivity|].
  rewrite (fill_qualities_180 d Hd). apply estimates_for_180_holds.
Qed.

(** C10: when the metadata has no duration, [/video-info] reports the
    duration 0 while its estimates are those of a duration of 180 seconds
    ([size_mb] 15, 24, 45 and 75). *)
Theorem video_info_missing_duration (E : env) (vid : str) (w : world)
        (info : gmap string pyval) :
  vid ≠ [] →
  extract_info E (watch_url vid) = inr info →
  info !! "duration"%string = None →
  ∃ vi, (get_video_info E (Some vid) w).1 = Response 200 (JsonVideoInfo vi)
        ∧ vi_duration vi = PyNum 0
        ∧ vi_qualities vi = fill_qualities (quality_estimates (180 / 60))
        ∧ estimates_for_180 (vi_qualities vi).
Proof.
  intros Hvid Hinfo Hdur. unfold get_video_info.
  destruct vid as [|c vid]; [done|].
  rewrite Hinfo, Hdur. simpl.
  eexists. split; [reflexivity|]. simpl. split; [reflexivity|].
  split; [reflexivity | apply estimates_for_180_holds].
Qed.

Section DownloadProperties.

Variable uni_alnum : N → bool.
Variable gettempdir : str.

Local Abbreviation download := (download uni_alnum gettempdir).
Local Abbreviation job_output := (job_output uni_alnum gettempdir).
Local Abbreviation job_opts := (job_opts uni_alnum gettempdir).
Local Abbreviation job_title := (job_title uni_alnum).

(** C7: when [videoId] is missing (or empty), [/download] answers 400 and
    the world is unchanged: no call to the collaborator has been recorded and
    the tracked set is the one before the request. *)
Theorem download_missing_video_id (E : env) (video_id quality : option str)
        (w : world) :
  falsy video_id = true →
  download E video_id quality w
  = (Response 400 (Text (lit "No video ID provided")), w)
  ∧ ydl_calls (download E video_id quality w).2 = ydl_calls w
  ∧ temp_files (download E video_id quality w).2 = temp_files w.
Proof.
  intros Hmissing. unfold download.
  destruct video_id as [[|c vid]|]; [done | discriminate | done].
Qed.

Lemma preclean_ok (disk : gmap str file) (out : str) :
  (∀ f0, disk !! out = Some f0 → removable f0 = true) →
  (if os_path_exists disk out then os_remove disk out else inr disk)
  = inr (delete out disk).
Proof.
  intros Hrm. unfold os_remove.
  destruct (disk !! out) as [f0|] eqn:Hout.
  - rewrite (os_path_exists_Some _ _ _ Hout), (Hrm f0 eq_refl). reflexivity.
  - rewrite (os_path_exists_None _ _ Hout). f_equal. symmetry. by apply delete_id.
Qed.


Lemma fetch_title_preserves (E : env) (vid : str) (w : world) :
  fs (fetch_title E vid w) = fs w
  ∧ temp_files (fetch_title E vid w) = temp_files w.
Proof.
  unfold fetch_title. destruct (extract_info E (watch_url vid)) as [e|info]; [done|].
  destruct (default (PyStr vid) (info !! "title"%string)); done.
Qed.

Lemma fetch_empty (E : env) (vid q : str) (w : world) (disk : gmap str file)
      (f : file) :
  let out := job_output E vid q in
  (∀ f0, fs w !! out = Some f0 → removable f0 = true) →
  ydl_download E (job_opts E vid q) (watch_url vid) (delete out (fs w))
    = (None, disk) →
  disk !! out = Some f →
  st_size f = 0 →
  removable f = true →
  ∃ w', fetch uni_alnum gettempdir E vid q w
        = (inl (Response 500 (Text (lit "Error: Downloaded file is empty"))), w')
        ∧ fs w' = delete out disk
        ∧ temp_files w' = temp_files w.
Proof.
  intros out Hpre Hdl Hf Hsize Hrm. unfold fetch. fold out.
  rewrite (preclean_ok _ _ Hpre).
  cbn [fs print set_fs]. rewrite Hdl. cbn [fs call set_fs].
  rewrite (os_path_exists_Some _ _ _ Hf). cbn [negb].
  unfold os_path_getsize, os_remove. rewrite Hf, Hsize, Hrm.
  change (0 =? 0) with true. cbv iota.
  eexists. split; [reflexivity|]. split; reflexivity.
Qed.

(** C1 (amended): when the download leaves a zero-byte file that can be
    removed at the output path, the request fails with the 500 response of
    an empty file and the file is absent from disk at once; its path is
    still in the tracked set. *)
Theorem download_empty_artifact (E : env) (vid : str) (quality : option str)
        (w : world) (disk : gmap str file) (f : file) :
  let q := default (lit "best") quality in
  let out := job_output E vid q in
  vid ≠ [] →
  (∀ f0, fs w !! out = Some f0 → removable f0 = true) →
  ydl_download E (job_opts E vid q) (watch_url vid) (delete out (fs w))
    = (None, disk) →
  disk !! out = Some f →
  st_size f = 0 →
  removable f = true →
  (download E (Some vid) quality w).1
    = Response 500 (Text (lit "Error: Downloaded file is empty"))
  ∧ fs (download E (Some vid) quality w).2 !! out = None
  ∧ out ∈ temp_files (download E (Some vid) quality w).2.
Proof.
  intros q out Hvid Hpre Hdl Hf Hsize Hrm.
  destruct (fetch_title_preserves E vid w) as [Hfs Htf].
  destruct (fetch_empty E vid q (register out (fetch_title E vid w)) disk f)
    as (w' & Hrun & Hfs' & Htf'); try assumption.
  { cbn [fs register set_temp_files]. by rewrite Hfs. }
  { cbn [fs register set_temp_files]. by rewrite Hfs. }
  assert (Hdown : download E (Some vid) quality w
                  = (Response 500 (Text (lit "Error: Downloaded file is empty")), w')).
  { unfold download. destruct vid as [|c vid']; [done|].
    fold q. fold out. rewrite Hrun. reflexivity. }
  rewrite Hdown. cbn [fst snd].
  assert (Hgone : fs w' !! out = None) by (rewrite Hfs'; apply lookup_delete_eq).
  assert (Htracked : out ∈ temp_files w').
  { rewrite Htf'. cbn [temp_files register set_temp_files]. set_solver. }
  split; [reflexivity|]. split; [exact Hgone | exact Htracked].
Qed.

End DownloadProperties.

(** ** The handlers on the example collaborator *)

Lemma video_info_estimates_180_witness :
  ∃ vi, (get_video_info (demo_env demo_info 0) (Some (lit "abc123")) empty_world).1
          = Response 200 (JsonVideoInfo vi)
        ∧ vi_duration vi = PyNum 180
        ∧ estimates_for_180 (vi_qualities vi).
Proof.
  apply (video_info_estimates_180 (demo_env demo_info 0) (lit "abc123")
           empty_world demo_info 180).
  - discriminate.
  - reflexivity.
  - vm_compute. reflexivity.
  - reflexivity.
Defined.

Lemma video_info_missing_duration_witness :
  ∃ vi, (get_video_info (demo_env ∅ 0) (Some (lit "abc123")) empty_world).1
          = Response 200 (JsonVideoInfo vi)
        ∧ vi_duration vi = PyNum 0
        ∧ vi_qualities vi = fill_qualities (quality_estimates (180 / 60))
        ∧ estimates_for_180 (vi_qualities vi).
Proof.
  apply (video_info_missing_duration (demo_env ∅ 0) (lit "abc123") empty_world ∅).
  - discriminate.
  - reflexivity.
  - vm_compute. reflexivity.
Defined.

Lemma download_missing_video_id_witness :
  download no_unicode (lit "/tmp") (demo_env demo_info 1000) None
           (Some (lit "720p")) demo_world
  = (Response 400 (Text (lit "No video ID provided")), demo_world).
Proof.
  apply (download_missing_video_id no_unicode (lit "/tmp")
           (demo_env demo_info 1000) None (Some (lit "720p")) demo_world).
  reflexivity.
Defined.

Lemma download_empty_artifact_witness :
  let run := download no_unicode (lit "/tmp") (demo_env demo_info 0)
                      (Some (lit "abc123")) (Some (lit "720p")) empty_world in
  run.1 = Response 500 (Text (lit "Error: Downloaded file is empty"))
  ∧ fs run.2 !! demo_output = None
  ∧ demo_output ∈ temp_files run.2.
Proof.
  apply (download_empty_artifact no_unicode (lit "/tmp") (demo_env demo_info 0)
           (lit "abc123") (Some (lit "720p")) empty_world
           (<[demo_output := File 0 0 true]> ∅) (File 0 0 true)).
  - discriminate.
  - intros f0 Hf0. vm_compute in Hf0. discriminate.
  - vm_compute. reflexivity.
  - vm_compute. reflexivity.
  - reflexivity.
  - reflexivity.
Defined.

(** C1, as stated, fails: the collaborator has written a zero-byte file, the
    request has failed with the 500 response of an empty file and the file is
    gone, but its path is still tracked. *)
Lemma download_empty_artifact_counterexample :
  let E := demo_env demo_info 0 in
  let run := download no_unicode (lit "/tmp") E (Some (lit "abc123"))
                      (Some (lit "720p")) empty_world in
  (ydl_download E (job_opts no_unicode (lit "/tmp") E (lit "abc123") (lit "720p"))
                (watch_url (lit "abc123")) ∅).2 !! demo_output
    = Some (File 0 0 true)
  ∧ ¬ (run.1 = Response 500 (Text (lit "Error: Downloaded file is empty"))
       ∧ fs run.2 !! demo_output = None
       ∧ demo_output ∉ temp_files run.2).
Proof.
  split; [vm_compute; reflexivity|].
  intros (_ & _ & Hout). apply Hout.
  apply (bool_decide_unpack _). vm_compute. exact I.
Qed.

(** ** Filename sanitiser *)

Ltac bool_to_prop :=
  unfold latin1_alnum, ascii_alnum, isspace, in_class, in_range,
         Char.space, Char.hyphen, Char.underscore, Char.slash in *;
  repeat match goal with
         | H : _ = true |- _ =>
             first [ rewrite orb_true_iff in H | rewrite andb_true_iff in H
                   | rewrite N.leb_le in H | rewrite N.eqb_eq in H
                   | rewrite N.ltb_lt in H ]
         | H : _ ∨ _ |- _ => destruct H
         | H : _ ∧ _ |- _ => destruct H
         end.

Lemma latin1_alnum_not_space (c : N) : latin1_alnum c = true → isspace c = false.
Proof.
  intros Ha. apply not_true_iff_false. intros Hs.
  bool_to_prop; lia.
Qed.

Lemma latin1_alnum_ascii (c : N) : c < 128 → latin1_alnum c = true → ascii_alnum c = true.
Proof.
  intros Hc Ha. unfold latin1_alnum in Ha.
  destruct (ascii_alnum c); [reflexivity|]. simpl in Ha.
  bool_to_prop; lia.
Qed.

Section SanitizerProperties.

Variable uni_alnum : N → bool.

(** No alphanumeric character is a whitespace character (this holds of
    Python's tables). *)
Hypothesis uni_alnum_not_space :
  ∀ c, 256 ≤ c → uni_alnum c = true → isspace c = false.

Local Abbreviation isalnum := (isalnum uni_alnum).
Local Abbreviation keep := (keep uni_alnum).
Local Abbreviation clean_title := (clean_title uni_alnum).
Local Abbreviation video_title_of := (video_title_of uni_alnum).

Local Abbreviation safe_char := (safe_char uni_alnum).

Lemma isalnum_not_space (c : N) : isalnum c = true → isspace c = false.
Proof using uni_alnum_not_space.
  unfold isalnum. destruct (c <? 256) eqn:Hc.
  - apply latin1_alnum_not_space.
  - apply uni_alnum_not_space. apply N.ltb_ge in Hc. exact Hc.
Qed.

Lemma safe_char_not_space (c : N) : safe_char c → isspace c = false.
Proof using uni_alnum_not_space.
  intros [Ha | [-> | ->]]; [by apply isalnum_not_space | reflexivity ..].
Qed.

Lemma safe_char_ascii (c : N) : c < 128 → safe_char c → in_class c = true.
Proof.
  intros Hc [Ha | [-> | ->]]; [|reflexivity ..].
  unfold isalnum in Ha.
  assert ((c <? 256) = true) as Hlt by (apply N.ltb_lt; lia).
  rewrite Hlt in Ha. unfold in_class.
  by rewrite (latin1_alnum_ascii c Hc Ha).
Qed.

Lemma rstrip_sublist (s : str) : (rstrip s) `sublist_of` s.
Proof.
  induction s as [|c s IH]; [constructor|].
  simpl. destruct (rstrip s) as [|d r] eqn:Hr.
  - destruct (isspace c).
    + apply sublist_nil_l.
    + apply sublist_skip, sublist_nil_l.
  - by apply sublist_skip.
Qed.

Lemma rstrip_nil (s : str) : rstrip s = [] ↔ Forall (λ c, isspace c = true) s.
Proof.
  induction s as [|c s IH]; [by split|].
  simpl. destruct (rstrip s) as [|d r] eqn:Hr.
  - destruct (isspace c) eqn:Hc.
    + split; [|done]. intros _. constructor; [done | by apply IH].
    + split; [done|]. intros H. apply Forall_cons in H as [H _]. congruence.
  - split; [done|]. intros H. apply Forall_cons in H as [_ H].
    apply IH in H. discriminate.
Qed.

Lemma replace_space_safe (s : str) :
  Forall (λ c, keep c = true) s → Forall safe_char (replace_space s).
Proof.
  intros H. unfold replace_space. apply Forall_fmap.
  eapply Forall_impl; [exact H|]. intros c Hk. simpl.
  destruct (c =? Char.space) eqn:Hsp.
  - right. right. reflexivity.
  - unfold keep in Hk. rewrite Hsp in Hk.
    unfold safe_char.
    destruct (isalnum c); [by left|]. simpl in Hk.
    apply orb_true_iff in Hk as [Hk | Hk]; apply N.eqb_eq in Hk; auto.
Qed.

Lemma filter_keep_Forall (t : str) : Forall (λ c, keep c = true) (List.filter keep t).
Proof.
  apply Forall_forall. intros c Hc. apply list_elem_of_In in Hc.
  apply filter_In in Hc. tauto.
Qed.

Lemma filter_keep_ascii (t : str) :
  Forall (λ c, c < 128) t → Forall (λ c, c < 128) (List.filter keep t).
Proof.
  rewrite !Forall_forall. intros H c Hc. apply H.
  apply list_elem_of_In in Hc. apply filter_In in Hc.
  apply list_elem_of_In. tauto.
Qed.

Lemma replace_space_ascii (s : str) :
  Forall (λ c, c < 128) s → Forall (λ c, c < 128) (replace_space s).
Proof.
  intros H. unfold replace_space. apply Forall_fmap.
  eapply Forall_impl; [exact H|]. intros c Hc. simpl.
  destruct (c =? Char.space); [reflexivity | exact Hc].
Qed.

Lemma Forall_sublist {A} (P : A → Prop) (l k : list A) :
  l `sublist_of` k → Forall P k → Forall P l.
Proof.
  intros Hsub Hk. apply Forall_forall. intros x Hx.
  eapply Forall_forall; [exact Hk|]. eapply elem_of_sublist; eauto.
Qed.

Lemma clean_title_sublist_safe (t : str) : Forall safe_char (clean_title t).
Proof.
  unfold clean_title. apply Forall_take, replace_space_safe.
  eapply Forall_sublist; [apply rstrip_sublist | apply filter_keep_Forall].
Qed.

Lemma clean_title_nil (t : str) :
  clean_title t = [] ↔ Forall (λ c, keep c = true → c = Char.space) t.
Proof using uni_alnum_not_space.
  unfold clean_title.
  assert (Htake : ∀ s : str, take 50 s = [] ↔ s = []).
  { intros [|c s]; [done|]. split; discriminate. }
  rewrite Htake. unfold replace_space.
  assert (Hmap : ∀ (g : N → N) (s : str), g <$> s = [] ↔ s = []).
  { intros g [|c s]; [done|]. split; discriminate. }
  rewrite Hmap, rstrip_nil.
  rewrite !Forall_forall. split.
  - intros H c Hc Hk.
    assert (Hin : c ∈ List.filter keep t).
    { apply list_elem_of_In, filter_In. split; [by apply list_elem_of_In | exact Hk]. }
    specialize (H c Hin). unfold keep in Hk.
    destruct (isalnum c) eqn:Ha.
    + rewrite (isalnum_not_space c Ha) in H. discriminate.
    + simpl in Hk. destruct (c =? Char.space) eqn:Hsp; [by apply N.eqb_eq in Hsp|].
      simpl in Hk. apply orb_true_iff in Hk as [Hk | Hk];
        apply N.eqb_eq in Hk; subst c; discriminate.
  - intros H c Hc. apply list_elem_of_In, filter_In in Hc as [Hc Hk].
    apply list_elem_of_In in Hc. rewrite (H c Hc Hk). reflexivity.
Qed.

(** C2 (amended): when the metadata holds a title string (or no title, in
    which case the identifier stands for it), the output is the cleaned
    title: it is made of characters alphanumeric for Python, hyphens and
    underscores only, which for an ASCII title are characters of
    [A-Za-z0-9 _-]; it has no whitespace, so none at its end; it has at most
    50 characters; and it is empty exactly when the title has no character
    that is kept other than spaces.  The raw identifier is the output only
    when extraction raises or the title is not a string. *)
Theorem sanitize_output (r : exn + gmap string pyval) (vid : str) :
  let out := video_title_of r vid in
  (∀ info t, r = inr info →
             default (PyStr vid) (info !! "title"%string) = PyStr t →
             out = clean_title t
             ∧ Forall safe_char out
             ∧ (Forall (λ c, c < 128) t → Forall (λ c, in_class c = true) out)
             ∧ Forall (λ c, isspace c = false) out
             ∧ (∀ c, last out = Some c → isspace c = false)
             ∧ (length out ≤ 50)%nat
             ∧ (out = [] ↔ Forall (λ c, keep c = true → c = Char.space) t))
  ∧ (∀ info, r = inr info →
          (∀ t, default (PyStr vid) (info !! "title"%string) ≠ PyStr t) →
          out = vid)
  ∧ (∀ e, r = inl e → out = vid).
Proof using uni_alnum_not_space.
  intros out. subst out. split.
  - intros info t -> Ht. unfold video_title_of. rewrite Ht.
    pose proof (clean_title_sublist_safe t) as Hsafe.
    assert (Hnosp : Forall (λ c, isspace c = false) (clean_title t)).
    { eapply Forall_impl; [exact Hsafe | apply safe_char_not_space]. }
    split; [reflexivity|]. split; [exact Hsafe|]. split; [|split; [exact Hnosp|split; [|split]]].
    + intros Hascii.
      assert (Hlt : Forall (λ c, c < 128) (clean_title t)).
      { unfold clean_title. apply Forall_take, replace_space_ascii.
        eapply Forall_sublist; [apply rstrip_sublist | by apply filter_keep_ascii]. }
      rewrite Forall_forall in *. intros c Hc.
      apply safe_char_ascii; auto.
    + intros c Hc. apply last_Some_elem_of in Hc.
      rewrite Forall_forall in Hnosp. auto.
    + unfold clean_title. rewrite length_take. lia.
    + apply clean_title_nil.
  - split.
    + intros info -> Hnot. unfold video_title_of.
      destruct (default (PyStr vid) (info !! "title"%string)) as [| |t];
        [reflexivity | reflexivity | by destruct (Hnot t)].
    + intros e ->. reflexivity.
Qed.

End SanitizerProperties.

Lemma sanitize_output_witness :
  let out := video_title_of no_unicode (inr demo_info) (lit "abc123") in
  out = lit "Some_Clip"
  ∧ Forall (λ c, in_class c = true) out
  ∧ (length out ≤ 50)%nat.
Proof.
  assert (Htable : ∀ c, 256 ≤ c → no_unicode c = true → isspace c = false)
    by (intros c _ H; discriminate H).
  destruct (proj1 (sanitize_output no_unicode Htable (inr demo_info) (lit "abc123"))
                  demo_info (lit "Some Clip!") eq_refl)
    as (Hout & _ & Hascii & _ & _ & Hlen & _); [vm_compute; reflexivity|].
  split; [vm_compute; reflexivity|]. split; [|exact Hlen].
  apply Hascii. vm_compute. repeat constructor.
Defined.

(** C2, as stated, fails on a title none of whose characters is kept: the
    result is empty although the identifier is not. *)
Lemma sanitize_output_counterexample :
  let out := video_title_of no_unicode
               (inr {[ "title"%string := PyStr (lit "!!!") ]}) (lit "abc123") in
  lit "abc123" ≠ []
  ∧ ¬ (Forall (λ c, in_class c = true) out
       ∧ (∀ c, last out = Some c → isspace c = false)
       ∧ (length out ≤ 50)%nat
       ∧ out ≠ []).
Proof.
  split; [discriminate|].
  intros (_ & _ & _ & Hne). apply Hne. vm_compute. reflexivity.
Qed.

(** A non-ASCII letter is kept: [é] is alphanumeric for Python. *)
Example sanitize_keeps_latin1_letter (uni_alnum : N → bool) :
  clean_title uni_alnum [233; 33] = [233] ∧ in_class 233 = false.
Proof. split; reflexivity. Qed.

(** When extraction raises, the identifier is used as it is. *)
Example sanitize_raw_identifier (uni_alnum : N → bool) :
  video_title_of uni_alnum (inl (OtherError (lit "network"))) (lit "../x y ")
  = lit "../x y ".
Proof. reflexivity. Qed.

(** ** Output paths *)

Lemma split_nonempty (sep : N) (s : str) : split sep s ≠ [].
Proof.
  destruct s as [|c s]; simpl; [done|].
  destruct (c =? sep); [done|]. by destruct (split sep s).
Qed.

Lemma split_app_sep (sep : N) (a b : str) :
  split sep (a ++ sep :: b) = split sep a ++ split sep b.
Proof.
  induction a as [|c a IH]; simpl.
  - by rewrite N.eqb_refl.
  - destruct (c =? sep); [by rewrite IH|].
    rewrite IH. pose proof (split_nonempty sep a) as Hne.
    by destruct (split sep a).
Qed.

Lemma split_no_sep (sep : N) (s : str) : sep ∉ s → split sep s = [s].
Proof.
  induction s as [|c s IH]; intros Hs; simpl; [done|].
  apply not_elem_of_cons in Hs as [Hne Hs].
  destruct (c =? sep) eqn:Hc; [apply N.eqb_eq in Hc; congruence|].
  by rewrite (IH Hs).
Qed.

Lemma resolve_app (stack : list str) (a b : list str) :
  resolve stack (a ++ b) = resolve (resolve stack a) b.
Proof.
  revert stack. induction a as [|c a IH]; intros stack; simpl; [done|].
  destruct (bool_decide (c = []) || bool_decide (c = lit ".")); [apply IH|].
  destruct (bool_decide (c = lit "..")); apply IH.
Qed.

(** A component that is kept as a directory or file name. *)
Lemma resolve_name (stack : list str) (c : str) (rest : list str) :
  c ≠ [] → c ≠ lit "." → c ≠ lit ".." →
  resolve stack (c :: rest) = resolve (c :: stack) rest.
Proof.
  intros H1 H2 H3. simpl.
  by rewrite !bool_decide_eq_false_2.
Qed.

Lemma resolve_dotdot (stack : list str) (rest : list str) :
  resolve stack (lit ".." :: rest) = resolve (tail stack) rest.
Proof. reflexivity. Qed.

Lemma join_resolve (a b : str) (stack : list str) :
  head b ≠ Some Char.slash →
  resolve stack (split Char.slash (os_path_join a b))
  = resolve (resolve stack (split Char.slash a)) (split Char.slash b).
Proof.
  intros Hb. unfold os_path_join.
  rewrite (bool_decide_eq_false_2 _ Hb).
  destruct (decide (a = [])) as [-> | Ha].
  - reflexivity.
  - rewrite (bool_decide_eq_false_2 _ Ha). simpl.
    destruct (decide (last a = Some Char.slash)) as [Hl | Hl].
    + rewrite (bool_decide_eq_true_2 _ Hl).
      apply last_Some in Hl as [a' ->].
      rewrite <- app_assoc. simpl.
      rewrite !split_app_sep, !resolve_app. reflexivity.
    + rewrite (bool_decide_eq_false_2 _ Hl).
      rewrite split_app_sep, resolve_app. reflexivity.
Qed.

Section PathProperties.

Variable uni_alnum : N → bool.
Variable gettempdir : str.

Local Abbreviation TEMP_DIR := (TEMP_DIR gettempdir).
Local Abbreviation output_path := (output_path gettempdir).
Local Abbreviation job_output := (job_output uni_alnum gettempdir).
Local Abbreviation job_title := (job_title uni_alnum).

Lemma TEMP_DIR_components :
  normal_components TEMP_DIR
  = reverse (resolve [] (split Char.slash gettempdir)) ++ [lit "yt_downloader"].
Proof.
  unfold normal_components, TEMP_DIR.
  rewrite join_resolve by (vm_compute; discriminate).
  change (split Char.slash (lit "yt_downloader")) with [lit "yt_downloader"].
  rewrite resolve_name by (vm_compute; discriminate).
  simpl. by rewrite reverse_cons.
Qed.

Lemma escaping_components (title ts : str) :
  Char.slash ∉ title → Char.slash ∉ ts →
  normal_components (output_path title escaping_quality ts)
  = reverse (resolve [] (split Char.slash gettempdir))
    ++ [lit "x_" ++ ts ++ lit ".mp4"].
Proof.
  intros Htitle Hts. unfold normal_components, output_path.
  assert (Hrest : title ++ lit "_" ++ escaping_quality ++ lit "_" ++ ts ++ lit ".mp4"
                  = (title ++ lit "_") ++ Char.slash ::
                      (lit ".." ++ Char.slash ::
                         (lit ".." ++ Char.slash :: (lit "x_" ++ ts ++ lit ".mp4")))).
  { rewrite <- app_assoc. reflexivity. }
  rewrite join_resolve.
  2: { destruct title as [|c title]; [vm_compute; discriminate|].
       simpl. apply not_elem_of_cons in Htitle as [Hc _]. congruence. }
  rewrite Hrest, !split_app_sep.
  assert (Hname : Char.slash ∉ title ++ lit "_").
  { rewrite elem_of_app. intros [H | H]; [done|]. vm_compute in H.
    apply list_elem_of_singleton in H. discriminate. }
  assert (Hfile : Char.slash ∉ lit "x_" ++ ts ++ lit ".mp4").
  { rewrite !elem_of_app. intros [H | [H | H]]; [|done|].
    - revert H. apply (bool_decide_unpack _). vm_compute. exact I.
    - revert H. apply (bool_decide_unpack _). vm_compute. exact I. }
  rewrite (split_no_sep _ _ Hname), (split_no_sep _ _ Hfile).
  change (split Char.slash (lit "..")) with [lit ".."].
  unfold TEMP_DIR. rewrite join_resolve by (vm_compute; discriminate).
  change (split Char.slash (lit "yt_downloader")) with [lit "yt_downloader"].
  rewrite (resolve_name _ (lit "yt_downloader")) by (vm_compute; discriminate).
  cbn [app].
  assert (Hin : Char.underscore ∈ title ++ lit "_").
  { apply elem_of_app. right. apply list_elem_of_singleton. reflexivity. }
  rewrite (resolve_name _ (title ++ lit "_")).
  2,3,4: intros Heq; rewrite Heq in Hin; revert Hin;
         apply (bool_decide_unpack _); vm_compute; exact I.
  rewrite !resolve_dotdot. cbn [tail].
  rewrite resolve_name by discriminate.
  simpl. by rewrite reverse_cons.
Qed.

Lemma benign_components (title quality ts : str) :
  Char.slash ∉ title → Char.slash ∉ quality → Char.slash ∉ ts →
  normal_components (output_path title quality ts)
  = normal_components TEMP_DIR
    ++ [title ++ lit "_" ++ quality ++ lit "_" ++ ts ++ lit ".mp4"].
Proof.
  intros Htitle Hquality Hts. rewrite TEMP_DIR_components.
  unfold normal_components, output_path.
  set (name := title ++ lit "_" ++ quality ++ lit "_" ++ ts ++ lit ".mp4").
  assert (Hname : Char.slash ∉ name).
  { subst name. rewrite !elem_of_app.
    intros [H | [H | [H | [H | [H | H]]]]]; try done;
      revert H; apply (bool_decide_unpack _); vm_compute; exact I. }
  assert (Hin : Char.underscore ∈ name).
  { subst name. apply elem_of_app. right. apply elem_of_app. left.
    apply list_elem_of_singleton. reflexivity. }
  clearbody name. rewrite join_resolve.
  2: { intros Hhead. apply Hname. destruct name; [discriminate|].
       simpl in Hhead. injection Hhead as ->. apply elem_of_cons. by left. }
  rewrite (split_no_sep _ _ Hname).
  unfold TEMP_DIR. rewrite join_resolve by (vm_compute; discriminate).
  change (split Char.slash (lit "yt_downloader")) with [lit "yt_downloader"].
  rewrite (resolve_name _ (lit "yt_downloader")) by (vm_compute; discriminate).
  rewrite (resolve_name _ name).
  2,3,4: intros Heq; rewrite Heq in Hin; revert Hin;
         apply (bool_decide_unpack _); vm_compute; exact I.
  simpl. rewrite !reverse_cons, <- app_assoc. reflexivity.
Qed.

(** A quality without path separator keeps the output path in [TEMP_DIR]. *)
Lemma output_path_inside (title quality ts : str) :
  Char.slash ∉ title → Char.slash ∉ quality → Char.slash ∉ ts →
  inside TEMP_DIR (output_path title quality ts).
Proof.
  intros Htitle Hquality Hts. unfold inside.
  rewrite (benign_components _ _ _ Htitle Hquality Hts).
  apply prefix_app_r. reflexivity.
Qed.

(** A cleaned title has no path separator. *)
Lemma clean_title_no_slash (t : str) : Char.slash ∉ clean_title uni_alnum t.
Proof.
  intros Hin.
  pose proof (clean_title_sublist_safe uni_alnum t) as Hsafe.
  rewrite Forall_forall in Hsafe.
  destruct (Hsafe _ Hin) as [Ha | [Hc | Hc]]; discriminate.
Qed.

(** C9: the output path of a request is [TEMP_DIR] joined with the title,
    the quality as received, the timestamp and [.mp4]; when title and
    timestamp hold no path separator, there is a quality for which this path
    lies outside [TEMP_DIR]. *)
Theorem output_path_escapes (E : env) (vid : str) :
  Char.slash ∉ job_title E vid →
  Char.slash ∉ strftime_now E →
  (∀ quality,
     job_output E vid quality
     = os_path_join TEMP_DIR
         (job_title E vid ++ lit "_" ++ quality ++ lit "_"
          ++ strftime_now E ++ lit ".mp4"))
  ∧ ∃ quality, ¬ inside TEMP_DIR (job_output E vid quality).
Proof.
  intros Htitle Hts. split; [reflexivity|].
  exists escaping_quality. unfold inside, job_output.
  rewrite (escaping_components _ _ Htitle Hts), TEMP_DIR_components.
  intros Hprefix. apply prefix_app_inv in Hprefix.
  destruct Hprefix as [k Hk]. simpl in Hk. discriminate Hk.
Qed.

End PathProperties.

Lemma output_path_escapes_witness :
  ∃ quality,
    ¬ inside (TEMP_DIR (lit "/tmp"))
        (job_output no_unicode (lit "/tmp") (demo_env demo_info 1000)
                    (lit "abc123") quality).
Proof.
  apply (output_path_escapes no_unicode (lit "/tmp") (demo_env demo_info 1000)
           (lit "abc123")).
  - apply (bool_decide_unpack _). vm_compute. exact I.
  - apply (bool_decide_unpack _). vm_compute. exact I.
Defined.

(** The request [/download?videoId=abc123&quality=/../../x] on the example
    collaborator: the file is written, tracked and served at a path that
    resolves to [/tmp/x_20260101_000000.mp4], outside [/tmp/yt_downloader]. *)
Example download_escapes_demo :
  let run := download no_unicode (lit "/tmp") (demo_env demo_info 1000)
                      (Some (lit "abc123")) (Some escaping_quality) empty_world in
  let served := lit "/tmp/yt_downloader/Some_Clip_/../../x_20260101_000000.mp4" in
  run.1 = Response 200 (Attachment served (lit "Some_Clip_/../../x.mp4"))
  ∧ served ∈ temp_files run.2
  ∧ fs run.2 !! served = Some (File 1000 0 true)
  ∧ normal_components served = [lit "tmp"; lit "x_20260101_000000.mp4"]
  ∧ normal_components (TEMP_DIR (lit "/tmp")) = [lit "tmp"; lit "yt_downloader"].
Proof.
  split; [vm_compute; reflexivity|].
  split; [apply (bool_decide_unpack _); vm_compute; exact I|].
  repeat split; vm_compute; reflexivity.
Qed.

(** * Further properties of the code *)

(** ** The sweeper thread *)

(** X4: whatever the times of its firings, the sweeper thread deletes no
    file and removes no path from the tracked set: after any number of
    firings the disk, the tracked set, the record of collaborator calls and
    the cleanup threads are as before, and each firing has printed one error
    line.  A tracked file is never reclaimed by the sweeper, however old. *)
Theorem cleanup_thread_changes_nothing (times : list Q) (w : world) :
  fs (cleanup_thread times w) = fs w
  ∧ temp_files (cleanup_thread times w) = temp_files w
  ∧ ydl_calls (cleanup_thread times w) = ydl_calls w
  ∧ cleanup_threads (cleanup_thread times w) = cleanup_threads w
  ∧ stdout (cleanup_thread times w)
    = stdout w
      ++ replicate (length times)
           (ErrorInCleanupOldFiles (UnboundLocalError (lit "temp_files"))).
Proof.
  revert w. induction times as [|now times IH]; intros w.
  - simpl. by rewrite app_nil_r.
  - change (cleanup_thread (now :: times) w)
      with (cleanup_thread times (cleanup_old_files now w)).
    destruct (IH (cleanup_old_files now w)) as (Hfs & Htf & Hcalls & Hth & Hout).
    rewrite Hfs, Htf, Hcalls, Hth, Hout.
    unfold cleanup_old_files, read_local. cbn [print fs temp_files stdout
      ydl_calls cleanup_threads length replicate].
    rewrite <- app_assoc. done.
Qed.

(** ** Exit cleanup *)






(** ** Delayed cleanup *)





(** ** The download handler, beyond the empty file *)

(** The selector handed to yt-dlp is always one of the five of the table. *)
Lemma format_selector_in_table (quality : str) :
  ∃ tag, tag ∈ fixed_tags ∧ quality_formats !! tag = Some (format_selector quality).
Proof.
  unfold format_selector.
  destruct (quality_formats !! quality) as [sel|] eqn:Hq.
  - exists quality. split; [|exact Hq].
    destruct (decide (quality ∈ fixed_tags)) as [Hin|Hout]; [exact Hin|].
    rewrite (quality_formats_unknown _ Hout) in Hq. discriminate.
  - exists (lit "best"). split; [|vm_compute; reflexivity].
    apply (bool_decide_unpack _). vm_compute. exact I.
Qed.

Section DownloadExtras.

Variable uni_alnum : N → bool.
Variable gettempdir : str.

Local Abbreviation download := (download uni_alnum gettempdir).
Local Abbreviation fetch := (fetch uni_alnum gettempdir).
Local Abbreviation job_output := (job_output uni_alnum gettempdir).
Local Abbreviation job_opts := (job_opts uni_alnum gettempdir).
Local Abbreviation job_title := (job_title uni_alnum).

Lemma fetch_title_calls (E : env) (vid : str) (w : world) :
  ydl_calls (fetch_title E vid w) = ydl_calls w ++ [ExtractInfo (watch_url vid)]
  ∧ cleanup_threads (fetch_title E vid w) = cleanup_threads w.
Proof.
  unfold fetch_title. destruct (extract_info E (watch_url vid)) as [e|info]; [done|].
  destruct (default (PyStr vid) (info !! "title"%string)); done.
Qed.

(** The download [try] block changes neither the tracked set nor the
    threads, and calls yt-dlp at most once. *)
Lemma fetch_frame (E : env) (vid q : str) (w : world) :
  temp_files (fetch E vid q w).2 = temp_files w
  ∧ cleanup_threads (fetch E vid q w).2 = cleanup_threads w
  ∧ (ydl_calls (fetch E vid q w).2 = ydl_calls w
     ∨ ydl_calls (fetch E vid q w).2
       = ydl_calls w ++ [Download (job_opts E vid q) (watch_url vid)])
  ∧ (∀ r, (fetch E vid q w).1 = inl r → status r = 500).
Proof.
  unfold fetch, download_failed.
  repeat (case_match; simpl in *; simplify_eq);
    (split; [done|]; split; [done|]; split; [auto|]);
    intros r Hr; simplify_eq; done.
Qed.

Lemma download_unfold (E : env) (vid : str) (quality : option str) (w : world) :
  vid ≠ [] →
  let q := default (lit "best") quality in
  let out := job_output E vid q in
  download E (Some vid) quality w
  = match fetch E vid q (register out (fetch_title E vid w)) with
    | (inl early, w) => (early, w)
    | (inr _, w) => stream E out (job_title E vid) q w
    end.
Proof. intros Hvid. destruct vid; [done | reflexivity]. Qed.

Lemma stream_cases (E : env) (out title q : str) (w : world) :
  ((stream E out title q w).1
     = Response 200 (Attachment out (title ++ lit "_" ++ q ++ lit ".mp4"))
   ∧ (stream E out title q w).2 = start_cleanup_thread w out)
  ∨ ((∃ e, (stream E out title q w).1
           = Response 500 (TextExn (lit "Error sending file: ") e))
     ∧ cleanup_threads (stream E out title q w).2 = cleanup_threads w
     ∧ ydl_calls (stream E out title q w).2 = ydl_calls w
     ∧ ∀ p, p ≠ out →
            (p ∈ temp_files (stream E out title q w).2 ↔ p ∈ temp_files w)).
Proof.
  unfold stream. destruct (send_file E (fs w) out) as [e|]; [right | left; done].
  simpl. split; [by exists e|].
  destruct (os_path_exists (fs w) out); [destruct (os_remove (fs w) out)|];
    simpl; (split; [done|]; split; [done|]); intros p Hp; set_solver.
Qed.

(** X8: a download request with a video id ends in one of three ways: a 200
    attachment of the output path, which is then tracked and has exactly one
    delayed-cleanup thread started for it; the 500 response of a failed
    [send_file], with no thread started; or a 500 response with the output
    path still tracked and no thread started. *)
Theorem download_outcomes (E : env) (vid : str) (quality : option str)
        (w : world) :
  vid ≠ [] →
  let q := default (lit "best") quality in
  let out := job_output E vid q in
  let r := (download E (Some vid) quality w).1 in
  let w' := (download E (Some vid) quality w).2 in
  (r = Response 200 (Attachment out (job_title E vid ++ lit "_" ++ q ++ lit ".mp4"))
   ∧ out ∈ temp_files w'
   ∧ cleanup_threads w' = cleanup_threads w ++ [out])
  ∨ ((∃ e, r = Response 500 (TextExn (lit "Error sending file: ") e))
     ∧ cleanup_threads w' = cleanup_threads w)
  ∨ (status r = 500
     ∧ out ∈ temp_files w'
     ∧ cleanup_threads w' = cleanup_threads w).
Proof.
  intros Hvid q out r w'. subst r w'.
  rewrite (download_unfold E vid quality w Hvid). fold q out.
  destruct (fetch_title_calls E vid w) as [_ Hthreads].
  destruct (fetch_frame E vid q (register out (fetch_title E vid w)))
    as (Htf & Hth & _ & Hstatus).
  destruct (fetch E vid q (register out (fetch_title E vid w)))
    as [[early|size] w1]; simpl in *.
  - right. right. split; [by apply Hstatus|].
    split; [rewrite Htf; set_solver | congruence].
  - destruct (stream_cases E out (job_title E vid) q w1)
      as [[-> ->] | ((e & ->) & Hth' & _ & _)].
    + left. split; [done|]. simpl. split; [rewrite Htf; set_solver | congruence].
    + right. left. split; [by exists e | congruence].
Qed.

(** X9: a download request changes the membership in the tracked set of no
    path other than its own output path. *)
Theorem download_registry_frame (E : env) (vid : str) (quality : option str)
        (w : world) (p : str) :
  vid ≠ [] →
  p ≠ job_output E vid (default (lit "best") quality) →
  (p ∈ temp_files (download E (Some vid) quality w).2 ↔ p ∈ temp_files w).
Proof.
  intros Hvid Hp.
  rewrite (download_unfold E vid quality w Hvid).
  set (q := default (lit "best") quality) in *.
  set (out := job_output E vid q) in *.
  destruct (fetch_title_preserves E vid w) as [_ Htitle].
  destruct (fetch_frame E vid q (register out (fetch_title E vid w)))
    as (Htf & _).
  assert (Hreg : p ∈ temp_files (register out (fetch_title E vid w))
                 ↔ p ∈ temp_files w).
  { simpl. rewrite Htitle. set_solver. }
  destruct (fetch E vid q (register out (fetch_title E vid w)))
    as [[early|size] w1]; simpl in *.
  - by rewrite Htf.
  - destruct (stream_cases E out (job_title E vid) q w1)
      as [[_ ->] | (_ & _ & _ & Hframe)].
    + simpl. by rewrite Htf.
    + rewrite (Hframe p Hp). by rewrite Htf.
Qed.

(** X10: a download request calls the collaborator once for the metadata of
    the watch URL and then at most once for the download, with the output
    path as template, [mp4] as merge format and one of the five selectors of
    the table as format, whatever the quality argument. *)
Theorem download_collaborator_calls (E : env) (vid : str)
        (quality : option str) (w : world) :
  vid ≠ [] →
  let q := default (lit "best") quality in
  let opts := job_opts E vid q in
  let calls := ydl_calls (download E (Some vid) quality w).2 in
  (calls = ydl_calls w ++ [ExtractInfo (watch_url vid)]
   ∨ calls = ydl_calls w ++ [ExtractInfo (watch_url vid);
                             Download opts (watch_url vid)])
  ∧ outtmpl opts = job_output E vid q
  ∧ merge_output_format opts = lit "mp4"
  ∧ ∃ tag, tag ∈ fixed_tags ∧ quality_formats !! tag = Some (format opts).
Proof.
  intros Hvid q opts calls. subst calls.
  split; [|split; [reflexivity | split; [reflexivity|]]].
  2: { apply format_selector_in_table. }
  rewrite (download_unfold E vid quality w Hvid). fold q.
  set (out := job_output E vid q).
  destruct (fetch_title_calls E vid w) as [Hcalls _].
  destruct (fetch_frame E vid q (register out (fetch_title E vid w)))
    as (_ & _ & Hfetch & _).
  simpl in Hfetch. rewrite Hcalls in Hfetch. fold opts in Hfetch.
  assert (Hgoal : ∀ w1 : world,
            (ydl_calls w1 = ydl_calls w ++ [ExtractInfo (watch_url vid)]
             ∨ ydl_calls w1 = (ydl_calls w ++ [ExtractInfo (watch_url vid)])
                              ++ [Download opts (watch_url vid)]) →
            ydl_calls w1 = ydl_calls w ++ [ExtractInfo (watch_url vid)]
            ∨ ydl_calls w1 = ydl_calls w ++ [ExtractInfo (watch_url vid);
                                              Download opts (watch_url vid)]).
  { intros w1 [H | H]; [by left | right]. by rewrite H, <- app_assoc. }
  destruct (fetch E vid q (register out (fetch_title E vid w)))
    as [[early|size] w1]; simpl in *.
  - by apply Hgoal.
  - destruct (stream_cases E out (job_title E vid) q w1)
      as [[_ ->] | (_ & _ & -> & _)]; by apply Hgoal.
Qed.

Lemma fetch_written (E : env) (vid q : str) (w : world) (disk : gmap str file)
      (f : file) :
  let out := job_output E vid q in
  (∀ f0, fs w !! out = Some f0 → removable f0 = true) →
  ydl_download E (job_opts E vid q) (watch_url vid) (delete out (fs w))
    = (None, disk) →
  disk !! out = Some f →
  st_size f ≠ 0 →
  ∃ w1, fetch E vid q w = (inr (st_size f), w1)
        ∧ fs w1 = disk
        ∧ temp_files w1 = temp_files w
        ∧ cleanup_threads w1 = cleanup_threads w.
Proof.
  intros out Hpre Hdl Hf Hsize. unfold fetch. fold out.
  rewrite (preclean_ok _ _ Hpre).
  cbn [fs print set_fs]. rewrite Hdl. cbn [fs call set_fs].
  rewrite (os_path_exists_Some _ _ _ Hf). cbn [negb].
  unfold os_path_getsize. rewrite Hf.
  apply N.eqb_neq in Hsize. rewrite Hsize.
  eexists. split; [reflexivity|]. done.
Qed.

(** X11: when the collaborator writes a non-empty file at the output path
    and [send_file] succeeds, the response is the 200 attachment named
    title_quality.mp4, the path is tracked and one cleanup thread is started;
    once that thread has run on a removable file, the file is gone and the
    tracked set is the one before the request without the output path. *)
Theorem download_success_round_trip (E : env) (vid : str)
        (quality : option str) (w : world) (disk : gmap str file) (f : file) :
  let q := default (lit "best") quality in
  let out := job_output E vid q in
  vid ≠ [] →
  (∀ f0, fs w !! out = Some f0 → removable f0 = true) →
  ydl_download E (job_opts E vid q) (watch_url vid) (delete out (fs w))
    = (None, disk) →
  disk !! out = Some f →
  st_size f ≠ 0 →
  send_file E disk out = None →
  let r := (download E (Some vid) quality w).1 in
  let w' := (download E (Some vid) quality w).2 in
  r = Response 200 (Attachment out (job_title E vid ++ lit "_" ++ q ++ lit ".mp4"))
  ∧ fs w' = disk
  ∧ temp_files w' = {[out]} ∪ temp_files w
  ∧ cleanup_threads w' = cleanup_threads w ++ [out]
  ∧ (removable f = true →
       fs (delayed_cleanup out w') = delete out disk
       ∧ temp_files (delayed_cleanup out w') = temp_files w ∖ {[out]}).
Proof.
  intros q out Hvid Hpre Hdl Hf Hsize Hsend r w'. subst r w'.
  rewrite (download_unfold E vid quality w Hvid). fold q out.
  destruct (fetch_title_preserves E vid w) as [Hfs Htf].
  destruct (fetch_title_calls E vid w) as [_ Hth].
  destruct (fetch_written E vid q (register out (fetch_title E vid w)) disk f)
    as (w1 & -> & Hfs1 & Htf1 & Hth1); try assumption.
  { cbn [fs register set_temp_files]. by rewrite Hfs. }
  { cbn [fs register set_temp_files]. by rewrite Hfs. }
  unfold stream. rewrite Hfs1, Hsend. simpl in *.
  rewrite Hfs1, Htf1, Hth1, Htf, Hth.
  split; [done|]. split; [done|]. split; [done|]. split; [done|].
  intros Hrm. unfold delayed_cleanup, os_remove. simpl.
  rewrite Hfs1, (os_path_exists_Some _ _ _ Hf), Hf, Hrm. simpl.
  rewrite Htf1, Htf. split; [done | set_solver].
Qed.

(** X12: when the collaborator returns without having written the output
    file, the response is the 500 of a missing file, the disk is as the
    collaborator left it and the path stays tracked. *)
Theorem download_output_missing (E : env) (vid : str) (quality : option str)
        (w : world) (disk : gmap str file) :
  let q := default (lit "best") quality in
  let out := job_output E vid q in
  vid ≠ [] →
  (∀ f0, fs w !! out = Some f0 → removable f0 = true) →
  ydl_download E (job_opts E vid q) (watch_url vid) (delete out (fs w))
    = (None, disk) →
  disk !! out = None →
  let r := (download E (Some vid) quality w).1 in
  let w' := (download E (Some vid) quality w).2 in
  r = Response 500 (Text (lit "Error: Download completed but file not found"))
  ∧ fs w' = disk
  ∧ out ∈ temp_files w'.
Proof.
  intros q out Hvid Hpre Hdl Hnone r w'. subst r w'.
  rewrite (download_unfold E vid quality w Hvid). fold q out.
  destruct (fetch_title_preserves E vid w) as [Hfs Htf].
  unfold fetch. fold out.
  rewrite (preclean_ok (fs (register out (fetch_title E vid w))) out).
  2: { cbn [fs register set_temp_files]. by rewrite Hfs. }
  cbn [fs register set_temp_files print set_fs]. rewrite Hfs, Hdl.
  cbn [fs call set_fs]. rewrite (os_path_exists_None _ _ Hnone). simpl.
  split; [done|]. split; [done | set_solver].
Qed.

(** X13: when the download step of the collaborator raises, the response is
    a 500 whose prefix is that of a YouTube download error for a
    [DownloadError] and that of a generic download error otherwise; the disk
    is left as the collaborator left it, the output path is tracked and no
    cleanup thread is started. *)
Theorem download_collaborator_raises (E : env) (vid : str)
        (quality : option str) (w : world) (disk : gmap str file) (e : exn) :
  let q := default (lit "best") quality in
  let out := job_output E vid q in
  vid ≠ [] →
  (∀ f0, fs w !! out = Some f0 → removable f0 = true) →
  ydl_download E (job_opts E vid q) (watch_url vid) (delete out (fs w))
    = (Some e, disk) →
  let r := (download E (Some vid) quality w).1 in
  let w' := (download E (Some vid) quality w).2 in
  r = Response 500
        (TextExn (if is_DownloadError e then lit "YouTube download error: "
                  else lit "Error downloading video: ") e)
  ∧ fs w' = disk
  ∧ temp_files w' = {[out]} ∪ temp_files w
  ∧ cleanup_threads w' = cleanup_threads w.
Proof.
  intros q out Hvid Hpre Hdl r w'. subst r w'.
  rewrite (download_unfold E vid quality w Hvid). fold q out.
  destruct (fetch_title_preserves E vid w) as [Hfs Htf].
  destruct (fetch_title_calls E vid w) as [_ Hth].
  unfold fetch. fold out.
  rewrite (preclean_ok (fs (register out (fetch_title E vid w))) out).
  2: { cbn [fs register set_temp_files]. by rewrite Hfs. }
  cbn [fs register set_temp_files print set_fs]. rewrite Hfs, Hdl.
  simpl. rewrite Htf, Hth. unfold download_failed.
  by destruct (is_DownloadError e).
Qed.

(** X14: when [send_file] raises after a successful download, the response is
    the 500 of a send failure and no cleanup thread is started; the file is
    removed and the path unregistered at once if the removal succeeds, and
    both are left in place if the removal raises. *)
Theorem download_send_file_fails (E : env) (vid : str) (quality : option str)
        (w : world) (disk : gmap str file) (f : file) (e : exn) :
  let q := default (lit "best") quality in
  let out := job_output E vid q in
  vid ≠ [] →
  (∀ f0, fs w !! out = Some f0 → removable f0 = true) →
  ydl_download E (job_opts E vid q) (watch_url vid) (delete out (fs w))
    = (None, disk) →
  disk !! out = Some f →
  st_size f ≠ 0 →
  send_file E disk out = Some e →
  let r := (download E (Some vid) quality w).1 in
  let w' := (download E (Some vid) quality w).2 in
  r = Response 500 (TextExn (lit "Error sending file: ") e)
  ∧ cleanup_threads w' = cleanup_threads w
  ∧ (removable f = true →
       fs w' = delete out disk ∧ temp_files w' = temp_files w ∖ {[out]})
  ∧ (removable f = false →
       fs w' = disk ∧ temp_files w' = {[out]} ∪ temp_files w).
Proof.
  intros q out Hvid Hpre Hdl Hf Hsize Hsend r w'. subst r w'.
  rewrite (download_unfold E vid quality w Hvid). fold q out.
  destruct (fetch_title_preserves E vid w) as [Hfs Htf].
  destruct (fetch_title_calls E vid w) as [_ Hth].
  destruct (fetch_written E vid q (register out (fetch_title E vid w)) disk f)
    as (w1 & -> & Hfs1 & Htf1 & Hth1); try assumption.
  { cbn [fs register set_temp_files]. by rewrite Hfs. }
  { cbn [fs register set_temp_files]. by rewrite Hfs. }
  unfold stream, os_remove. rewrite Hfs1, Hsend, (os_path_exists_Some _ _ _ Hf), Hf.
  simpl in *. split; [done|].
  destruct (removable f); simpl; rewrite ?Hfs1, ?Htf1, ?Hth1, ?Htf, ?Hth.
  - split; [done|]. split; [|done]. intros _. split; [done | set_solver].
  - split; [done|]. split; [done|]. intros _. done.
Qed.

(** X15: when a file that cannot be removed already sits at the output path,
    the request fails with the 500 of a generic download error before the
    collaborator is asked to download anything; the disk is unchanged and the
    path is tracked. *)
Theorem download_stale_file_locked (E : env) (vid : str) (quality : option str)
        (w : world) (f0 : file) :
  let q := default (lit "best") quality in
  let out := job_output E vid q in
  vid ≠ [] →
  fs w !! out = Some f0 →
  removable f0 = false →
  let r := (download E (Some vid) quality w).1 in
  let w' := (download E (Some vid) quality w).2 in
  r = Response 500 (TextExn (lit "Error downloading video: ") (PermissionError out))
  ∧ fs w' = fs w
  ∧ ydl_calls w' = ydl_calls w ++ [ExtractInfo (watch_url vid)]
  ∧ out ∈ temp_files w'.
Proof.
  intros q out Hvid Hf0 Hlocked r w'. subst r w'.
  rewrite (download_unfold E vid quality w Hvid). fold q out.
  destruct (fetch_title_preserves E vid w) as [Hfs Htf].
  destruct (fetch_title_calls E vid w) as [Hcalls _].
  unfold fetch, os_remove. fold out.
  cbn [fs register set_temp_files]. rewrite Hfs.
  rewrite (os_path_exists_Some _ _ _ Hf0), Hf0, Hlocked. simpl.
  rewrite Hfs, Hcalls. split; [done|]. split; [done|]. split; [done|]. set_solver.
Qed.

End DownloadExtras.

(** *** The download handler on the example collaborators *)

Ltac closed_fact := first [ discriminate | vm_compute; reflexivity
                          | apply (bool_decide_unpack _); vm_compute; exact I ].

Ltac no_stale_file :=
  let f0 := fresh in let H := fresh in
  intros f0 H; vm_compute in H; discriminate H.

Lemma download_outcomes_witness :
  let run := download no_unicode (lit "/tmp") (demo_env_with (writes true) None)
                      (Some (lit "abc123")) (Some (lit "720p")) empty_world in
  (run.1 = Response 200 (Attachment demo_output (lit "Some_Clip_720p.mp4"))
   ∧ demo_output ∈ temp_files run.2
   ∧ cleanup_threads run.2 = [demo_output])
  ∨ ((∃ e, run.1 = Response 500 (TextExn (lit "Error sending file: ") e))
     ∧ cleanup_threads run.2 = [])
  ∨ (status run.1 = 500
     ∧ demo_output ∈ temp_files run.2
     ∧ cleanup_threads run.2 = []).
Proof.
  apply (download_outcomes no_unicode (lit "/tmp") (demo_env_with (writes true) None)
           (lit "abc123") (Some (lit "720p")) empty_world).
  discriminate.
Defined.

Lemma download_registry_frame_witness :
  demo_old ∈ temp_files
    (download no_unicode (lit "/tmp") (demo_env_with (writes true) None)
              (Some (lit "abc123")) (Some (lit "720p")) demo_world).2.
Proof.
  apply (download_registry_frame no_unicode (lit "/tmp")
           (demo_env_with (writes true) None) (lit "abc123") (Some (lit "720p"))
           demo_world demo_old); closed_fact.
Defined.

Lemma download_collaborator_calls_witness :
  let E := demo_env_with (raises (DownloadError (lit "unavailable"))) None in
  let calls := ydl_calls (download no_unicode (lit "/tmp") E (Some (lit "abc123"))
                                   None empty_world).2 in
  calls = [ExtractInfo (watch_url (lit "abc123"))]
  ∨ calls = [ExtractInfo (watch_url (lit "abc123"));
             Download (job_opts no_unicode (lit "/tmp") E (lit "abc123") (lit "best"))
                      (watch_url (lit "abc123"))].
Proof.
  apply (download_collaborator_calls no_unicode (lit "/tmp")
           (demo_env_with (raises (DownloadError (lit "unavailable"))) None)
           (lit "abc123") None empty_world).
  discriminate.
Defined.

Lemma download_success_round_trip_witness :
  let run := download no_unicode (lit "/tmp") (demo_env_with (writes true) None)
                      (Some (lit "abc123")) (Some (lit "720p")) empty_world in
  run.1 = Response 200 (Attachment demo_output (lit "Some_Clip_720p.mp4"))
  ∧ temp_files run.2 = {[demo_output]} ∪ ∅
  ∧ temp_files (delayed_cleanup demo_output run.2) = ∅ ∖ {[demo_output]}.
Proof.
  destruct (download_success_round_trip no_unicode (lit "/tmp")
              (demo_env_with (writes true) None) (lit "abc123")
              (Some (lit "720p")) empty_world
              (<[demo_output := File 1000 0 true]> ∅) (File 1000 0 true))
    as (Hr & _ & Htf & _ & Hclean); [closed_fact | no_stale_file | closed_fact ..|].
  split; [exact Hr|]. split; [exact Htf|]. by apply Hclean.
Defined.

Lemma download_output_missing_witness :
  let run := download no_unicode (lit "/tmp") (demo_env_with writes_nothing None)
                      (Some (lit "abc123")) (Some (lit "720p")) empty_world in
  run.1 = Response 500 (Text (lit "Error: Download completed but file not found"))
  ∧ demo_output ∈ temp_files run.2.
Proof.
  destruct (download_output_missing no_unicode (lit "/tmp")
              (demo_env_with writes_nothing None) (lit "abc123")
              (Some (lit "720p")) empty_world ∅)
    as (Hr & _ & Hin); [closed_fact | no_stale_file | closed_fact ..|].
  split; [exact Hr | exact Hin].
Defined.

Lemma download_collaborator_raises_witness :
  let e := DownloadError (lit "unavailable") in
  let run := download no_unicode (lit "/tmp") (demo_env_with (raises e) None)
                      (Some (lit "abc123")) (Some (lit "720p")) empty_world in
  run.1 = Response 500 (TextExn (lit "YouTube download error: ") e)
  ∧ temp_files run.2 = {[demo_output]} ∪ ∅.
Proof.
  destruct (download_collaborator_raises no_unicode (lit "/tmp")
              (demo_env_with (raises (DownloadError (lit "unavailable"))) None)
              (lit "abc123") (Some (lit "720p")) empty_world ∅
              (DownloadError (lit "unavailable")))
    as (Hr & _ & Htf & _); [closed_fact | no_stale_file | closed_fact |].
  split; [exact Hr | exact Htf].
Defined.

Lemma download_send_file_fails_witness :
  let e := FileNotFoundError demo_output in
  let run := download no_unicode (lit "/tmp") (demo_env_with (writes false) (Some e))
                      (Some (lit "abc123")) (Some (lit "720p")) empty_world in
  run.1 = Response 500 (TextExn (lit "Error sending file: ") e)
  ∧ cleanup_threads run.2 = []
  ∧ temp_files run.2 = {[demo_output]} ∪ ∅.
Proof.
  destruct (download_send_file_fails no_unicode (lit "/tmp")
              (demo_env_with (writes false) (Some (FileNotFoundError demo_output)))
              (lit "abc123") (Some (lit "720p")) empty_world
              (<[demo_output := File 1000 0 false]> ∅) (File 1000 0 false)
              (FileNotFoundError demo_output))
    as (Hr & Hth & _ & Hlocked); [closed_fact | no_stale_file | closed_fact ..|].
  split; [exact Hr|]. split; [exact Hth|]. by apply Hlocked.
Defined.

Lemma download_stale_file_locked_witness :
  let run := download no_unicode (lit "/tmp") (demo_env_with (writes true) None)
                      (Some (lit "abc123")) (Some (lit "720p")) stale_world in
  run.1 = Response 500 (TextExn (lit "Error downloading video: ")
                                (PermissionError demo_output))
  ∧ ydl_calls run.2 = [] ++ [ExtractInfo (watch_url (lit "abc123"))].
Proof.
  destruct (download_stale_file_locked no_unicode (lit "/tmp")
              (demo_env_with (writes true) None) (lit "abc123")
              (Some (lit "720p")) stale_world (File 7 0 false))
    as (Hr & _ & Hcalls & _); [closed_fact ..|].
  split; [exact Hr | exact Hcalls].
Defined.

(** ** Output paths, beyond the escaping quality *)

Lemma os_path_join_inj (a b1 b2 : str) :
  head b1 = head b2 → os_path_join a b1 = os_path_join a b2 → b1 = b2.
Proof.
  intros Hhead. unfold os_path_join. rewrite Hhead.
  destruct (bool_decide (head b2 = Some Char.slash)); [done|].
  destruct (bool_decide (a = []) || bool_decide (last a = Some Char.slash)).
  - apply app_inv_head.
  - intros H. apply app_inv_head in H. by injection H.
Qed.

Lemma head_app_nonempty (a b c : str) : a ≠ [] → head (a ++ b) = head (a ++ c).
Proof. destruct a; [done | reflexivity]. Qed.

Section PathExtras.

Variable uni_alnum : N → bool.
Variable gettempdir : str.

Local Abbreviation TEMP_DIR := (TEMP_DIR gettempdir).
Local Abbreviation output_path := (output_path gettempdir).
Local Abbreviation job_output := (job_output uni_alnum gettempdir).
Local Abbreviation job_title := (job_title uni_alnum).

(** X16: for one title and one quality, two output paths are equal exactly
    when their timestamps are equal: requests in different seconds never
    share a file, requests in the same second do. *)
Theorem output_path_timestamp_injective (title quality ts1 ts2 : str) :
  output_path title quality ts1 = output_path title quality ts2 ↔ ts1 = ts2.
Proof.
  split; [|by intros ->].
  unfold output_path. intros Heq.
  apply os_path_join_inj in Heq.
  - rewrite !app_assoc in Heq. apply app_inv_tail in Heq.
    by apply app_inv_head in Heq.
  - rewrite !(app_assoc title (lit "_")).
    apply head_app_nonempty. by destruct title.
Qed.

(** X17: when the metadata gives a title string and neither the quality nor
    the timestamp holds a path separator, the title used is the cleaned
    title and the output path is a file directly in [TEMP_DIR]. *)
Theorem job_output_confined (E : env) (vid quality : str)
        (info : gmap string pyval) (t : str) :
  extract_info E (watch_url vid) = inr info →
  default (PyStr vid) (info !! "title"%string) = PyStr t →
  Char.slash ∉ quality →
  Char.slash ∉ strftime_now E →
  job_title E vid = clean_title uni_alnum t
  ∧ normal_components (job_output E vid quality)
    = normal_components TEMP_DIR
      ++ [clean_title uni_alnum t ++ lit "_" ++ quality ++ lit "_"
          ++ strftime_now E ++ lit ".mp4"]
  ∧ inside TEMP_DIR (job_output E vid quality).
Proof.
  intros Hinfo Ht Hq Hts.
  assert (Htitle : job_title E vid = clean_title uni_alnum t).
  { unfold job_title, video_title_of. by rewrite Hinfo, Ht. }
  assert (Hcomp : normal_components (job_output E vid quality)
                  = normal_components TEMP_DIR
                    ++ [clean_title uni_alnum t ++ lit "_" ++ quality ++ lit "_"
                        ++ strftime_now E ++ lit ".mp4"]).
  { unfold job_output. rewrite Htitle.
    apply benign_components; [apply clean_title_no_slash | done | done]. }
  split; [exact Htitle|]. split; [exact Hcomp|].
  unfold inside. rewrite Hcomp. apply prefix_app_r. reflexivity.
Qed.

(** X18: when metadata extraction raises and the video id starts with a path
    separator, the output path is the id followed by quality, timestamp and
    [.mp4]: [os.path.join] drops [TEMP_DIR] altogether. *)
Theorem job_output_absolute_id (E : env) (vid quality : str) (e : exn) :
  extract_info E (watch_url vid) = inl e →
  head vid = Some Char.slash →
  job_output E vid quality
  = vid ++ lit "_" ++ quality ++ lit "_" ++ strftime_now E ++ lit ".mp4".
Proof.
  intros Hraise Hhead.
  unfold job_output, job_title, video_title_of, output_path, os_path_join.
  rewrite Hraise.
  rewrite bool_decide_eq_true_2; [reflexivity|].
  destruct vid as [|c vid]; [discriminate|]. exact Hhead.
Qed.

End PathExtras.

Lemma job_output_confined_witness :
  inside (TEMP_DIR (lit "/tmp")) demo_output.
Proof.
  apply (job_output_confined no_unicode (lit "/tmp") (demo_env demo_info 0)
           (lit "abc123") (lit "720p") demo_info (lit "Some Clip!")).
  - reflexivity.
  - vm_compute. reflexivity.
  - apply (bool_decide_unpack _). vm_compute. exact I.
  - apply (bool_decide_unpack _). vm_compute. exact I.
Defined.

Lemma job_output_absolute_id_witness :
  job_output no_unicode (lit "/tmp")
             (Env (λ _, inl (OtherError (lit "offline"))) writes_nothing
                  (lit "20260101_000000") (λ _ _, None))
             (lit "/etc/cron.d/job") (lit "best")
  = lit "/etc/cron.d/job_best_20260101_000000.mp4".
Proof.
  apply (job_output_absolute_id no_unicode (lit "/tmp")
           (Env (λ _, inl (OtherError (lit "offline"))) writes_nothing
                (lit "20260101_000000") (λ _ _, None))
           (lit "/etc/cron.d/job") (lit "best") (OtherError (lit "offline")));
    reflexivity.
Defined.

(** ** The sanitiser on its own output *)

Section SanitizerExtras.

Variable uni_alnum : N → bool.

Hypothesis uni_alnum_not_space :
  ∀ c, 256 ≤ c → uni_alnum c = true → isspace c = false.

Local Abbreviation keep := (keep uni_alnum).
Local Abbreviation clean_title := (clean_title uni_alnum).
Local Abbreviation safe_char := (safe_char uni_alnum).

Lemma rstrip_no_space (s : str) :
  Forall (λ c, isspace c = false) s → rstrip s = s.
Proof.
  induction s as [|c s IH]; intros Hs; [reflexivity|].
  apply Forall_cons in Hs as [Hc Hs]. simpl. rewrite (IH Hs).
  destruct s; [by rewrite Hc | reflexivity].
Qed.

Lemma safe_char_keep (c : N) : safe_char c → keep c = true.
Proof.
  intros [Ha | [-> | ->]]; unfold keep.
  - by rewrite Ha.
  - by rewrite orb_true_r.
  - by rewrite !orb_true_r.
Qed.

Lemma filter_keep_safe (t : str) : Forall safe_char t → List.filter keep t = t.
Proof.
  induction t as [|c t IH]; intros Ht; [reflexivity|].
  apply Forall_cons in Ht as [Hc Ht]. simpl.
  by rewrite (safe_char_keep c Hc), (IH Ht).
Qed.

Lemma replace_space_no_space (s : str) :
  Forall (λ c, isspace c = false) s → replace_space s = s.
Proof.
  induction s as [|c s IH]; intros Hs; [reflexivity|].
  apply Forall_cons in Hs as [Hc Hs].
  change (replace_space (c :: s))
    with ((if c =? Char.space then Char.underscore else c) :: replace_space s).
  rewrite (IH Hs). destruct (c =? Char.space) eqn:Hsp; [|reflexivity].
  apply N.eqb_eq in Hsp. subst c. discriminate.
Qed.

(** X19: the strings the sanitiser leaves unchanged are exactly those of at
    most 50 characters that are alphanumeric, hyphens or underscores; so
    cleaning a cleaned title changes nothing. *)
Theorem clean_title_fixed_points (t : str) :
  (clean_title t = t ↔ Forall safe_char t ∧ (length t ≤ 50)%nat)
  ∧ clean_title (clean_title t) = clean_title t.
Proof using uni_alnum_not_space.
  assert (Hfix : ∀ s : str, Forall safe_char s → (length s ≤ 50)%nat →
                            clean_title s = s).
  { intros s Hsafe Hlen. unfold clean_title.
    assert (Hnosp : Forall (λ c, isspace c = false) s).
    { eapply Forall_impl; [exact Hsafe|].
      by apply safe_char_not_space. }
    rewrite (filter_keep_safe s Hsafe), (rstrip_no_space s Hnosp),
            (replace_space_no_space s Hnosp).
    by apply take_ge. }
  assert (Hout : ∀ s : str, Forall safe_char (clean_title s)
                            ∧ (length (clean_title s) ≤ 50)%nat).
  { intros s. split; [apply clean_title_sublist_safe|].
    unfold clean_title. rewrite length_take. lia. }
  split.
  - split.
    + intros Heq. rewrite <- Heq. apply Hout.
    + intros [Hsafe Hlen]. by apply Hfix.
  - apply Hfix; apply Hout.
Qed.

End SanitizerExtras.

Lemma clean_title_fixed_points_witness :
  clean_title no_unicode (lit "Some_Clip") = lit "Some_Clip".
Proof.
  assert (Htable : ∀ c, 256 ≤ c → no_unicode c = true → isspace c = false)
    by (intros c _ H; discriminate H).
  apply (proj1 (clean_title_fixed_points no_unicode Htable (lit "Some_Clip"))).
  split.
  - repeat (apply Forall_cons_2;
            [first [left; reflexivity | right; right; reflexivity]|]).
    apply Forall_nil_2.
  - vm_compute. lia.
Defined.

(** ** The video-info handler, beyond the estimates *)

Lemma fill_qualities_dom (m : Q) :
  dom (fill_qualities (quality_estimates m))
  = {[ lit "360p"; lit "480p"; lit "720p"; lit "1080p" ]}.
Proof.
  unfold fill_qualities, quality_estimates. cbn [foldl].
  rewrite !dom_insert_L, dom_empty_L. set_solver.
Qed.

(** X20: when [videoId] is missing or empty, [/video-info] answers 400 with
    a JSON error and leaves the world unchanged: the collaborator is not
    called. *)
Theorem video_info_missing_video_id (E : env) (video_id : option str)
        (w : world) :
  falsy video_id = true →
  get_video_info E video_id w
  = (Response 400 (JsonError (lit "No video ID provided") None), w).
Proof.
  intros Hmissing. unfold get_video_info.
  destruct video_id as [[|c vid]|]; [reflexivity | discriminate | reflexivity].
Qed.

(** X21: [/video-info] answers 500 with the exception when extraction
    raises, and 500 with a TypeError when the metadata holds a duration that
    is not a number (such as None); whatever the outcome, it calls the
    collaborator exactly once and changes neither the disk, the tracked set
    nor the cleanup threads. *)
Theorem video_info_failures (E : env) (vid : str) (w : world) :
  vid ≠ [] →
  let r := (get_video_info E (Some vid) w).1 in
  let w' := (get_video_info E (Some vid) w).2 in
  (∀ e, extract_info E (watch_url vid) = inl e →
        r = Response 500 (JsonError (lit "Failed to get video info: ") (Some e)))
  ∧ (∀ info v, extract_info E (watch_url vid) = inr info →
               info !! "duration"%string = Some v →
               (∀ d, v ≠ PyNum d) →
               r = Response 500
                     (JsonError (lit "Failed to get video info: ") (Some TypeError)))
  ∧ fs w' = fs w
  ∧ temp_files w' = temp_files w
  ∧ cleanup_threads w' = cleanup_threads w
  ∧ ydl_calls w' = ydl_calls w ++ [ExtractInfo (watch_url vid)].
Proof.
  intros Hvid r w'. subst r w'. unfold get_video_info.
  destruct vid as [|c vid]; [done|].
  split; [|split].
  - intros e ->. reflexivity.
  - intros info v -> Hv Hnot. rewrite Hv. simpl.
    destruct v as [|d|s]; [reflexivity | by destruct (Hnot d) | reflexivity].
  - destruct (extract_info E (watch_url (c :: vid))) as [e|info]; [done|].
    destruct (to_number _); done.
Qed.

(** X24: the tags [/qualities] advertises are exactly the keys of the
    selector table, and the tags with a size estimate are exactly the
    advertised ones other than [best], for every duration. *)
Theorem advertised_qualities_are_known :
  dom get_qualities = dom quality_formats
  ∧ dom get_qualities = list_to_set fixed_tags
  ∧ ∀ duration_minutes,
      dom (fill_qualities (quality_estimates duration_minutes))
      = dom get_qualities ∖ {[ lit "best" ]}.
Proof.
  split; [vm_compute; reflexivity|]. split; [vm_compute; reflexivity|].
  intros m. rewrite fill_qualities_dom. vm_compute. reflexivity.
Qed.

Lemma video_info_missing_video_id_witness :
  get_video_info (demo_env demo_info 0) (Some []) demo_world
  = (Response 400 (JsonError (lit "No video ID provided") None), demo_world).
Proof.
  apply (video_info_missing_video_id (demo_env demo_info 0) (Some []) demo_world).
  reflexivity.
Defined.

Lemma video_info_failures_witness :
  (get_video_info (demo_env {[ "duration"%string := PyNone ]} 0)
                  (Some (lit "abc123")) empty_world).1
  = Response 500 (JsonError (lit "Failed to get video info: ") (Some TypeError)).
Proof.
  destruct (video_info_failures (demo_env {[ "duration"%string := PyNone ]} 0)
              (lit "abc123") empty_world) as (_ & Htype & _); [discriminate|].
  apply (Htype {[ "duration"%string := PyNone ]} PyNone);
    [reflexivity | vm_compute; reflexivity | discriminate].
Defined.

(** ** The timestamp of the example request *)

Lemma output_path_timestamp_injective_witness :
  output_path (lit "/tmp") (lit "Some_Clip") (lit "720p") (lit "20260101_000000")
  = demo_output.
Proof.
  apply (proj2 (output_path_timestamp_injective (lit "/tmp") (lit "Some_Clip")
                  (lit "720p") (lit "20260101_000000") (lit "20260101_000000"))).
  reflexivity.
Defined.
